(** * waiverwire-2025: the NFL data scripts

    A shallow embedding of [scripts/nfl-data-pipeline.py] (class
    [NFLDataPipeline]) and of [scripts/simple-nfl-data-fetch.py] (class
    [SimpleNFLDataFetcher]), and the properties of the batched uploader,
    of the fetch steps and of the two pipeline drivers.

    Python statements are computations in a state-and-exception monad over
    an explicit world: the list objects of the interpreter, the state of
    everything outside the process (network, upstream provider, file
    system), the record of the external calls made so far, and standard
    output. *)

From stdpp Require Import gmap strings list fin_maps pretty.

Local Open Scope Z_scope.
Local Open Scope nat_scope.

(** ** The Python fragment the scripts use *)

Module Py.

(** An instance of [Exception] or of one of its subclasses, carrying what
    [str(e)] shows.  [KeyboardInterrupt], [SystemExit] and the other
    classes that derive from [BaseException] only are no part of the
    model: no [except Exception] clause of the scripts sees them. *)
Inductive exn : Type := Exception (msg : string).

(** How a call ends: it returns a value or it raises. *)
Inductive outcome (A : Type) : Type :=
| Returned (a : A)
| Raised (e : exn).
Arguments Returned {A} a.
Arguments Raised {A} e.

(** A computation over a world of type [W]; the world it leaves behind
    is kept when it raises. *)
Definition M (W A : Type) : Type := W -> W * outcome A.

Definition ret {W A} (a : A) : M W A := fun w => (w, Returned a).

Definition raise {W A} (e : exn) : M W A := fun w => (w, Raised e).

Definition bind {W A B} (c : M W A) (k : A -> M W B) : M W B :=
  fun w =>
    match c w with
    | (w1, Returned a) => k a w1
    | (w1, Raised e) => (w1, Raised e)
    end.

(** [try: c  except Exception as e: h e] *)
Definition try_except {W A} (c : M W A) (h : exn -> M W A) : M W A :=
  fun w =>
    match c w with
    | (w1, Returned a) => (w1, Returned a)
    | (w1, Raised e) => h e w1
    end.

(** What the body of a [for] loop asks for when it ends: the next
    iteration, or to leave the enclosing function with a value. *)
Inductive flow (R : Type) : Type :=
| Continue
| Return (r : R).
Arguments Continue {R}.
Arguments Return {R} r.

(** [for x in xs: body x], where the body may [return]. *)
Fixpoint for_in {W A R} (xs : list A) (body : A -> M W (flow R))
  : M W (flow R) :=
  match xs with
  | [] => ret Continue
  | x :: xs' =>
      bind (body x) (fun f =>
        match f with
        | Continue => for_in xs' body
        | Return r => ret (Return r)
        end)
  end.

(** [range(start, stop, step)] for a positive step, as the list it
    iterates over. *)
Definition range (start stop step : nat) : list nat :=
  (fun k => start + k * step) <$> seq 0 ((stop - start + step - 1) / step).

(** [l[i:j]] for indices that are not negative. *)
Definition slice {A} (l : list A) (i j : nat) : list A :=
  take (j - i) (drop i l).

(** Truth value of an [Optional[str]]: [None] and the empty string are
    false. *)
Definition truthy (o : option string) : bool :=
  match o with
  | None => false
  | Some s => negb (String.eqb s "")
  end.

(** [range(start, stop)] over the integers. *)
Definition range_int (start stop : Z) : list Z :=
  (fun k => (start + Z.of_nat k)%Z) <$> seq 0 (Z.to_nat (stop - start)).

(** [sep.join(xs)] *)
Fixpoint join (sep : string) (xs : list string) : string :=
  match xs with
  | [] => ""
  | [x] => x
  | x :: xs' => x +:+ sep +:+ join sep xs'
  end.

(** ['-'.join(map(str, years))] *)
Definition dashed (years : list Z) : string := join "-" (pretty <$> years).

(** The values the scripts hand to [json.dump]: lists of records,
    strings, integers, lists of integers, and dictionaries of those in
    insertion order. *)
#[warnings="-register-all"]
Inductive value (Dict : Type) : Type :=
| VRecords (rows : list Dict)
| VStr (s : string)
| VInt (n : Z)
| VInts (ns : list Z)
| VDict (items : list (string * value Dict)).
Arguments VRecords {Dict} rows.
Arguments VStr {Dict} s.
Arguments VInt {Dict} n.
Arguments VInts {Dict} ns.
Arguments VDict {Dict} items.

(** [f"{o}"] for an [Optional[str]]. *)
Definition str (o : option string) : string :=
  match o with
  | None => "None"
  | Some s => s
  end.

End Py.

Import Py.

Declare Scope py_scope.
Delimit Scope py_scope with py.
Notation "'let!' x ':=' c 'in' k" := (bind c (fun x => k))
  (at level 10, x name, c at level 100, k at level 200) : py_scope.
Notation "c ';;' k" := (bind c (fun _ => k))
  (at level 100, k at level 200, right associativity) : py_scope.
Local Open Scope py_scope.

(** ** scripts/nfl-data-pipeline.py *)

Module Pipeline.

(** A name of a list object of the interpreter. *)
Definition loc : Type := nat.

(** The attributes of [requests.Response] the script reads. *)
Record response : Type := mkResponse {
  status_code : Z;
  text : string
}.

(** The [nfl_data_py] entry points the script calls, with their
    arguments ([columns=None] when the keyword is left out). *)
Inductive import_call : Type :=
| import_rosters (years : list Z)
| import_weekly_data (years : list Z) (columns : option (list string))
| import_schedules (years : list Z)
| import_injuries (years : list Z)
| import_team_desc
| import_seasonal_data (years : list Z)
| import_pbp_data (years : list Z) (columns : option (list string)).

Section WithEnvironment.

(** A record ([Dict]) is opaque to the pipeline: it is fetched, counted,
    sliced and sent, never inspected. *)
Variable Dict : Type.

(** A [pandas.DataFrame] as the list of its rows;
    [pd.DataFrame()] is the empty one. *)
Definition DataFrame : Type := list Dict.

(** The dictionary [create_player_projections_dataset] returns. *)
Definition value : Type := Py.value Dict.

(** Everything outside the process, and the library calls that reach
    it.  Each takes the state outside to the state after the call and
    either returns or raises. *)
Variable Env : Type.
Variable requests_post :
  string -> gmap string string -> list Dict -> Env -> Env * outcome response.
Variable nfl : import_call -> Env -> Env * outcome DataFrame.
Variable to_json : DataFrame -> string -> Env -> Env * outcome unit.
Variable json_dump : value -> string -> Env -> Env * outcome unit.
Variable datetime_now_isoformat : Env -> Env * string.

(** One external call, with how it ended.  A write is recorded with its
    path and with what was handed to it: the records of the frame for
    [to_json], the dictionary for [json.dump]. *)
Inductive event : Type :=
| Posted (url : string) (headers : gmap string string) (json : list Dict)
         (res : outcome response)
| Imported (c : import_call) (res : outcome DataFrame)
| Wrote (path : string) (v : value) (res : outcome unit)
| Clock (now : string).

(** A line of standard output, one constructor per [print] pattern of
    the script with the values it interpolates; [NextSteps] stands for
    the five lines that close [run_full_pipeline]. *)
Inductive line : Type :=
| Fetching (what : string) (years : list Z)
| Retrieved (n : nat) (what : string)
| Saved (what path : string)
| ErrorFetching (what : string) (e : exn)
| CreatingDataset (years : list Z)
| Progress (what : string)
| CreatedDataset (n : nat)
| ErrorCreatingDataset (e : exn)
| CredentialsNotFound
| Updating (data_type : string) (n : nat)
| ErrorUpdatingBatch (k : nat) (text : string)
| UpdatedBatch (k total : nat)
| SuccessfullyUpdated (n : nat) (data_type : string)
| ErrorUpdatingSupabase (e : exn)
| StartingPipeline
| PipelineCompleted
| AllDataSavedTo (dir : string)
| NextSteps.

Record World : Type := mkWorld {
  lists : gmap loc (list Dict);
  env : Env;
  trace : list event;
  stdout : list line
}.

Record NFLDataPipeline : Type := mkPipeline {
  output_dir : string;
  current_season : Z;
  supabase_url : option string;
  supabase_key : option string
}.

(** *** Primitive statements *)

Definition print (l : line) : M World unit :=
  fun w => (mkWorld (lists w) (env w) (trace w) (stdout w ++ [l]),
            Returned tt).

(** The list object a name refers to (the empty list for a name that
    refers to none: Python has no such name). *)
Definition deref (data : loc) : M World (list Dict) :=
  fun w => (w, Returned (lists w !!! data)).

Definition len (data : loc) : M World nat :=
  let! l := deref data in ret (length l).

(** [data[i:j]]: a fresh list, handed on by value. *)
Definition getslice (data : loc) (i j : nat) : M World (list Dict) :=
  let! l := deref data in ret (slice l i j).

(** Run a library call against the outside and record it. *)
Definition external {A} (call : Env -> Env * outcome A)
    (ev : outcome A -> event) : M World A :=
  fun w =>
    let (env', res) := call (env w) in
    (mkWorld (lists w) env' (trace w ++ [ev res]) (stdout w), res).

Definition post (url : string) (headers : gmap string string)
    (json : list Dict) : M World response :=
  external (requests_post url headers json) (Posted url headers json).

Definition import (c : import_call) : M World DataFrame :=
  external (nfl c) (Imported c).

Definition df_to_json (df : DataFrame) (path : string) : M World unit :=
  external (to_json df path) (Wrote path (VRecords df)).

Definition dump (v : value) (path : string) : M World unit :=
  external (json_dump v path) (Wrote path v).

Definition now : M World string :=
  fun w =>
    let (env', t) := datetime_now_isoformat (env w) in
    (mkWorld (lists w) env' (trace w ++ [Clock t]) (stdout w), Returned t).

(** *** update_supabase_database *)

Definition table_mapping : gmap string string :=
  {[ "players" := "nfl_players";
     "stats" := "player_game_stats";
     "projections" := "player_projections" ]}.

Definition table_name (data_type : string) : string :=
  default data_type (table_mapping !! data_type).

Definition make_headers (self : NFLDataPipeline) : gmap string string :=
  {[ "apikey" := str (supabase_key self);
     "Authorization" := "Bearer " +:+ str (supabase_key self);
     "Content-Type" := "application/json";
     "Prefer" := "return=minimal" ]}.

Definition make_url (self : NFLDataPipeline) (data_type : string) : string :=
  str (supabase_url self) +:+ "/rest/v1/" +:+ table_name data_type.

Definition batch_size : nat := 100.

Definition send_batch (url : string) (headers : gmap string string)
    (data : loc) (i : nat) : M World (flow bool) :=
  let! batch := getslice data i (i + batch_size) in
  let! response := post url headers batch in
  if bool_decide (status_code response ∉ [200; 201]%Z) then
    print (ErrorUpdatingBatch (i / batch_size + 1) (text response)) ;;
    ret (Return false)
  else
    let! n := len data in
    print (UpdatedBatch (i / batch_size + 1)
             ((n + batch_size - 1) / batch_size)) ;;
    ret Continue.

Definition update_supabase_database (self : NFLDataPipeline)
    (data_type : string) (data : loc) : M World bool :=
  if negb (truthy (supabase_url self)) || negb (truthy (supabase_key self))
  then
    print CredentialsNotFound ;;
    ret false
  else
    let! n := len data in
    print (Updating data_type n) ;;
    try_except
      (let headers := make_headers self in
       let url := make_url self data_type in
       let! n := len data in
       let! f := for_in (range 0 n batch_size)
                   (send_batch url headers data) in
       match f with
       | Return r => ret r
       | Continue =>
           let! n := len data in
           print (SuccessfullyUpdated n data_type) ;;
           ret true
       end)
      (fun e =>
         print (ErrorUpdatingSupabase e) ;;
         ret false).

(** *** The fetch steps *)

Definition fetch_roster_data (self : NFLDataPipeline)
    (years : option (list Z)) : M World DataFrame :=
  let years := default [current_season self] years in
  print (Fetching "roster data" years) ;;
  try_except
    (let! rosters := import (import_rosters years) in
     print (Retrieved (length rosters) "roster entries") ;;
     let output_path :=
       output_dir self +:+ "/rosters_" +:+ dashed years +:+ ".json" in
     df_to_json rosters output_path ;;
     print (Saved "roster data" output_path) ;;
     ret rosters)
    (fun e =>
       print (ErrorFetching "roster data" e) ;;
       ret []).

Definition passing_columns : list string :=
  ["player_id"; "player_name"; "position"; "team"; "week"; "season";
   "completions"; "attempts"; "passing_yards"; "passing_tds";
   "interceptions"; "passing_epa"; "passing_first_downs"].

Definition rushing_columns : list string :=
  ["player_id"; "player_name"; "position"; "team"; "week"; "season";
   "carries"; "rushing_yards"; "rushing_tds"; "rushing_epa";
   "rushing_first_downs"].

Definition receiving_columns : list string :=
  ["player_id"; "player_name"; "position"; "team"; "week"; "season";
   "targets"; "receptions"; "receiving_yards"; "receiving_tds";
   "receiving_epa"; "receiving_first_downs"].

Definition weekly_columns (stat_type : string) : option (list string) :=
  if String.eqb stat_type "passing" then Some passing_columns
  else if String.eqb stat_type "rushing" then Some rushing_columns
  else if String.eqb stat_type "receiving" then Some receiving_columns
  else None.

Definition fetch_player_stats (self : NFLDataPipeline)
    (years : option (list Z)) (stat_type : string) : M World DataFrame :=
  let years := default [current_season self] years in
  print (Fetching (stat_type +:+ " stats") years) ;;
  try_except
    (let! stats :=
       import (import_weekly_data years (weekly_columns stat_type)) in
     print (Retrieved (length stats) (stat_type +:+ " stat entries")) ;;
     let output_path :=
       output_dir self +:+ "/" +:+ stat_type +:+ "_stats_"
         +:+ dashed years +:+ ".json" in
     df_to_json stats output_path ;;
     print (Saved (stat_type +:+ " stats") output_path) ;;
     ret stats)
    (fun e =>
       print (ErrorFetching (stat_type +:+ " stats") e) ;;
       ret []).

Definition fetch_schedule_data (self : NFLDataPipeline)
    (years : option (list Z)) : M World DataFrame :=
  let years := default [current_season self] years in
  print (Fetching "schedule data" years) ;;
  try_except
    (let! schedule := import (import_schedules years) in
     print (Retrieved (length schedule) "games") ;;
     let output_path :=
       output_dir self +:+ "/schedule_" +:+ dashed years +:+ ".json" in
     df_to_json schedule output_path ;;
     print (Saved "schedule" output_path) ;;
     ret schedule)
    (fun e =>
       print (ErrorFetching "schedule" e) ;;
       ret []).

Definition fetch_injury_reports (self : NFLDataPipeline)
    : M World DataFrame :=
  print (Progress "injury reports") ;;
  try_except
    (let! injuries := import (import_injuries [current_season self]) in
     print (Retrieved (length injuries) "injury reports") ;;
     let output_path :=
       output_dir self +:+ "/injuries_"
         +:+ pretty (current_season self) +:+ ".json" in
     df_to_json injuries output_path ;;
     print (Saved "injuries" output_path) ;;
     ret injuries)
    (fun e =>
       print (ErrorFetching "injuries" e) ;;
       ret []).

Definition fetch_team_data (self : NFLDataPipeline)
    (years : option (list Z)) : M World DataFrame :=
  print (Progress "team data") ;;
  try_except
    (let! teams := import import_team_desc in
     print (Retrieved (length teams) "teams") ;;
     let output_path := output_dir self +:+ "/teams.json" in
     df_to_json teams output_path ;;
     print (Saved "teams" output_path) ;;
     ret teams)
    (fun e =>
       print (ErrorFetching "team data" e) ;;
       ret []).

Definition pbp_columns : list string :=
  ["player_id"; "passer_player_name"; "rusher_player_name";
   "receiver_player_name"; "week"; "season"; "epa"; "cpoe"; "air_yards";
   "yards_after_catch"].

Definition create_player_projections_dataset (self : NFLDataPipeline)
    (historical_years : option (list Z)) : M World value :=
  let historical_years :=
    default (range_int 2018 (current_season self + 1)) historical_years in
  print (CreatingDataset historical_years) ;;
  try_except
    (print (Progress "historical weekly performance") ;;
     let! weekly_data := import (import_weekly_data historical_years None) in
     print (Progress "seasonal stats") ;;
     let! seasonal_data := import (import_seasonal_data historical_years) in
     print (Progress "advanced metrics") ;;
     let! pbp_data :=
       import (import_pbp_data historical_years (Some pbp_columns)) in
     let! created_at := now in
     let dataset :=
       VDict
         [("weekly_stats", VRecords weekly_data);
          ("seasonal_stats", VRecords seasonal_data);
          ("advanced_metrics", VRecords pbp_data);
          ("metadata",
           VDict
             [("created_at", VStr created_at);
              ("seasons", VInts historical_years);
              ("records_count",
               VDict
                 [("weekly", VInt (Z.of_nat (length weekly_data)));
                  ("seasonal", VInt (Z.of_nat (length seasonal_data)));
                  ("pbp", VInt (Z.of_nat (length pbp_data)))])])] in
     let output_path := output_dir self +:+ "/projection_dataset.json" in
     dump dataset output_path ;;
     print (CreatedDataset (length weekly_data)) ;;
     print (Saved "dataset" output_path) ;;
     ret dataset)
    (fun e =>
       print (ErrorCreatingDataset e) ;;
       ret (VDict [])).

(** *** run_full_pipeline *)

Definition run_full_pipeline (self : NFLDataPipeline) : M World unit :=
  print StartingPipeline ;;
  fetch_team_data self None ;;
  fetch_roster_data self (Some [current_season self]) ;;
  fetch_schedule_data self (Some [current_season self]) ;;
  fetch_injury_reports self ;;
  fetch_player_stats self (Some [current_season self]) "passing" ;;
  fetch_player_stats self (Some [current_season self]) "rushing" ;;
  fetch_player_stats self (Some [current_season self]) "receiving" ;;
  create_player_projections_dataset self None ;;
  print PipelineCompleted ;;
  print (AllDataSavedTo (output_dir self)) ;;
  print NextSteps ;;
  ret tt.

End WithEnvironment.

Arguments mkWorld {Dict Env} lists env trace stdout.
Arguments lists {Dict Env} w.
Arguments env {Dict Env} w.
Arguments trace {Dict Env} w.
Arguments stdout {Dict Env} w.
Arguments Posted {Dict} url headers json res.
Arguments Imported {Dict} c res.
Arguments Wrote {Dict} path v res.
Arguments Clock {Dict} now.
Arguments print {Dict Env} l w.
Arguments post {Dict Env} requests_post url headers json w.
Arguments send_batch {Dict Env} requests_post url headers data i w.
Arguments update_supabase_database {Dict Env} requests_post self data_type
  data w.
Arguments fetch_roster_data {Dict Env} nfl to_json self years w.
Arguments fetch_player_stats {Dict Env} nfl to_json self years stat_type w.
Arguments fetch_schedule_data {Dict Env} nfl to_json self years w.
Arguments fetch_injury_reports {Dict Env} nfl to_json self w.
Arguments fetch_team_data {Dict Env} nfl to_json self years w.
Arguments create_player_projections_dataset {Dict Env} nfl json_dump
  datetime_now_isoformat self historical_years w.
Arguments run_full_pipeline {Dict Env} nfl to_json json_dump
  datetime_now_isoformat self w.

(** *** What the uploader is measured against *)

Section Batches.

Context {Dict Env : Type}.
Variable requests_post :
  string -> gmap string string -> list Dict -> Env -> Env * outcome response.

(** The slices the loop of [update_supabase_database] takes of a list,
    in the order of its iterations. *)
Definition batches (l : list Dict) : list (list Dict) :=
  (fun i => slice l i (i + batch_size))
    <$> range 0 (length l) batch_size.

(** The JSON bodies of the write requests among some events. *)
Definition bodies (evs : list (event Dict)) : list (list Dict) :=
  omap (fun ev =>
          match ev with
          | Posted _ _ json _ => Some json
          | _ => None
          end) evs.

(** A write request that was answered, with status 200 or 201. *)
Definition succeeded (ev : event Dict) : bool :=
  match ev with
  | Posted _ _ _ (Returned r) =>
      bool_decide (status_code r ∈ [200; 201]%Z)
  | _ => false
  end.

(** The requests made when bodies are posted in order up to and
    including the first that does not succeed. *)
Fixpoint exchange (url : string) (headers : gmap string string)
    (bs : list (list Dict)) (e : Env) : list (event Dict) :=
  match bs with
  | [] => []
  | b :: bs' =>
      let (e', res) := requests_post url headers b e in
      Posted url headers b res ::
        (if succeeded (Posted url headers b res)
         then exchange url headers bs' e'
         else [])
  end.

(** How the loop ends, read off the requests it made. *)
Fixpoint loop_result (evs : list (event Dict)) : outcome (flow bool) :=
  match evs with
  | [] => Returned Continue
  | ev :: evs' =>
      if succeeded ev then loop_result evs'
      else match ev with
           | Posted _ _ _ (Raised e) => Raised e
           | _ => Returned (Return false)
           end
  end.

End Batches.

(** *** What the fetch steps are measured against *)

Section Steps.

Context {Dict Env : Type}.

(** The exception an external call ended with, if it raised. *)
Definition raised (ev : event Dict) : option exn :=
  match ev with
  | Posted _ _ _ (Raised e) => Some e
  | Imported _ (Raised e) => Some e
  | Wrote _ _ (Raised e) => Some e
  | _ => None
  end.

(** The exception a line of output reports, if it is an error line of a
    fetch step. *)
Definition reported (l : line) : option exn :=
  match l with
  | ErrorFetching _ e => Some e
  | ErrorCreatingDataset e => Some e
  | _ => None
  end.

(** The upstream entry points called among some events, in order. *)
Definition imports (evs : list (event Dict)) : list import_call :=
  omap (fun ev =>
          match ev with
          | Imported c _ => Some c
          | _ => None
          end) evs.

(** A step that starts with the upstream call [c] and lets no exception
    of its external calls out: it returns; and if one of its calls raised,
    that call was its last, the step returns [empty], and the last line
    it printed reports the exception. *)
Definition catching {A} (step : M (World Dict Env) A) (c : import_call)
    (empty : A) : Prop :=
  forall w,
    exists w' v res rest,
      step w = (w', Returned v) /\
      trace w' = trace w ++ Imported c res :: rest /\
      forall ev e,
        ev ∈ Imported c res :: rest -> raised ev = Some e ->
        v = empty /\
        last (Imported c res :: rest) = Some ev /\
        exists l, last (stdout w') = Some l /\ reported l = Some e.

End Steps.

(** The first upstream call of each step of [run_full_pipeline], in the
    order of the steps. *)
Definition full_pipeline_imports (self : NFLDataPipeline)
    : list import_call :=
  [import_team_desc;
   import_rosters [current_season self];
   import_schedules [current_season self];
   import_injuries [current_season self];
   import_weekly_data [current_season self] (Some passing_columns);
   import_weekly_data [current_season self] (Some rushing_columns);
   import_weekly_data [current_season self] (Some receiving_columns);
   import_weekly_data (range_int 2018 (current_season self + 1)) None].

(** A server for worked examples: it answers from a script, one entry
    per request, and with 200 once the script has run out. *)
Definition scripted (url : string) (headers : gmap string string)
    (json : list nat) (script : list (outcome response))
    : list (outcome response) * outcome response :=
  match script with
  | [] => ([], Returned (mkResponse 200 ""))
  | r :: script' => (script', r)
  end.

Definition demo_pipeline : NFLDataPipeline :=
  mkPipeline "data/nfl" 2024 (Some "https://db.example") (Some "anon-key").

Definition demo_world (n : nat) (script : list (outcome response))
    : World nat (list (outcome response)) :=
  mkWorld {[ 0 := seq 0 n ]} script [] [].

(** An upload of the list object 0 of that world. *)
Definition demo_upload (self : NFLDataPipeline) (data_type : string)
    (n : nat) (script : list (outcome response))
    : World nat (list (outcome response)) * outcome bool :=
  update_supabase_database scripted self data_type 0 (demo_world n script).

Definition ok : outcome response := Returned (mkResponse 201 "").
Definition unavailable : outcome response :=
  Returned (mkResponse 503 "Service Unavailable").
Definition timed_out : outcome response := Raised (Exception "timed out").

(** An upstream provider for worked examples: the roster import raises,
    every other import returns three rows. *)
Definition rosters_down (c : import_call) (e : unit)
    : unit * outcome (DataFrame nat) :=
  match c with
  | import_rosters _ => (e, Raised (Exception "HTTP Error 404: Not Found"))
  | _ => (e, Returned [1; 2; 3])
  end.

(** One in which every import raises. *)
Definition offline (c : import_call) (e : unit)
    : unit * outcome (DataFrame nat) :=
  (e, Raised (Exception "Name or service not known")).

(** A file system in which every write goes through, and a clock. *)
Definition written {A} (v : A) (path : string) (e : unit)
    : unit * outcome unit :=
  (e, Returned tt).

Definition noon (e : unit) : unit * string := (e, "2024-09-01T12:00:00").

Definition fresh_world : World nat unit := mkWorld ∅ tt [] [].

End Pipeline.

(** ** scripts/simple-nfl-data-fetch.py *)

Module Simple.

Section WithEnvironment.

Variable Dict : Type.

(** The data literals of the script: the team table, the sample
    players, the three sample stat tables and the two tables of the
    sample history. *)
Variable teams : list Dict.
Variable sample_players : list Dict.
Variable passing_stats rushing_stats receiving_stats : list Dict.
Variable weekly_stats seasonal_stats : list Dict.

(** The file system and the clock. [json_dump v path] stands for
    [with open(path, 'w') as f: json.dump(v, f, indent=2)]. *)
Variable Env : Type.
Variable json_dump : value Dict -> string -> Env -> Env * outcome unit.
Variable datetime_now_isoformat : Env -> Env * string.

Inductive event : Type :=
| Wrote (path : string) (v : value Dict) (res : outcome unit)
| Clock (now : string).

Inductive line : Type :=
| FetchingTeams
| SavedTeams (n : nat) (path : string)
| CreatingRosters
| CreatedRoster (n : nat) (path : string)
| CreatingStats
| SavedStats (n : nat) (path : string)
| CreatingDataset
| CreatedDataset (path : string)
| StartingPipeline
| PipelineCompleted
| AllDataSavedTo (dir : string)
| NextSteps
| PipelineFailed (e : exn).

Record World : Type := mkWorld {
  env : Env;
  trace : list event;
  stdout : list line
}.

Record SimpleNFLDataFetcher : Type := mkFetcher {
  output_dir : string;
  current_season : Z
}.

Definition print (l : line) : M World unit :=
  fun w => (mkWorld (env w) (trace w) (stdout w ++ [l]), Returned tt).

Definition dump (v : value Dict) (path : string) : M World unit :=
  fun w =>
    let (env', res) := json_dump v path (env w) in
    (mkWorld env' (trace w ++ [Wrote path v res]) (stdout w), res).

Definition now : M World string :=
  fun w =>
    let (env', t) := datetime_now_isoformat (env w) in
    (mkWorld env' (trace w ++ [Clock t]) (stdout w), Returned t).

Definition fetch_teams_data (self : SimpleNFLDataFetcher)
    : M World (list Dict) :=
  print FetchingTeams ;;
  let output_path := output_dir self +:+ "/teams.json" in
  dump (VRecords teams) output_path ;;
  print (SavedTeams (length teams) output_path) ;;
  ret teams.

Definition create_sample_rosters (self : SimpleNFLDataFetcher)
    : M World (list Dict) :=
  print CreatingRosters ;;
  let output_path := output_dir self +:+ "/rosters_2024.json" in
  dump (VRecords sample_players) output_path ;;
  print (CreatedRoster (length sample_players) output_path) ;;
  ret sample_players.

Definition create_sample_stats (self : SimpleNFLDataFetcher)
    : M World (value Dict) :=
  print CreatingStats ;;
  let stats_files :=
    [("passing_stats_2024.json", passing_stats);
     ("rushing_stats_2024.json", rushing_stats);
     ("receiving_stats_2024.json", receiving_stats)] in
  for_in (R := unit) stats_files
    (fun '(filename, stats) =>
       let output_path := output_dir self +:+ "/" +:+ filename in
       dump (VRecords stats) output_path ;;
       print (SavedStats (length stats) output_path) ;;
       ret Continue) ;;
  ret (VDict [("passing", VRecords passing_stats);
              ("rushing", VRecords rushing_stats);
              ("receiving", VRecords receiving_stats)]).

Definition create_projection_dataset (self : SimpleNFLDataFetcher)
    : M World (value Dict) :=
  print CreatingDataset ;;
  let! created_at := now in
  let historical_data :=
    VDict
      [("weekly_stats", VRecords weekly_stats);
       ("seasonal_stats", VRecords seasonal_stats);
       ("metadata",
        VDict
          [("created_at", VStr created_at);
           ("seasons", VInts [2023; 2024]%Z);
           ("description", VStr "Sample dataset for projection modeling")])] in
  let output_path := output_dir self +:+ "/projection_dataset.json" in
  dump historical_data output_path ;;
  print (CreatedDataset output_path) ;;
  ret historical_data.

(** The statements under [try:] in [run_simple_pipeline]. *)
Definition pipeline_steps (self : SimpleNFLDataFetcher) : M World unit :=
  fetch_teams_data self ;;
  create_sample_rosters self ;;
  create_sample_stats self ;;
  create_projection_dataset self ;;
  print PipelineCompleted ;;
  print (AllDataSavedTo (output_dir self)) ;;
  print NextSteps ;;
  ret tt.

Definition run_simple_pipeline (self : SimpleNFLDataFetcher)
    : M World unit :=
  print StartingPipeline ;;
  try_except
    (pipeline_steps self)
    (fun e =>
       print (PipelineFailed e) ;;
       raise e).

End WithEnvironment.

Arguments mkWorld {Dict Env} env trace stdout.
Arguments env {Dict Env} w.
Arguments trace {Dict Env} w.
Arguments stdout {Dict Env} w.
Arguments Wrote {Dict} path v res.
Arguments Clock {Dict} now.
Arguments print {Dict Env} l w.

(** The exception a write ended with, if it raised. *)
Definition raised {Dict} (ev : event Dict) : option exn :=
  match ev with
  | Wrote _ _ (Raised e) => Some e
  | _ => None
  end.

(** A file system for worked examples: it counts the writes and has
    room for [room] of them. *)
Definition disk (room : nat) (v : value nat) (path : string) (n : nat)
    : nat * outcome unit :=
  if bool_decide (n < room) then (S n, Returned tt)
  else (S n, Raised (Exception "No space left on device")).

Definition noon (n : nat) : nat * string := (n, "2024-09-01T12:00:00").

Definition demo_fetcher : SimpleNFLDataFetcher := mkFetcher "data/nfl" 2024.

(** The simplified pipeline on sample tables of one, two and three
    rows, with room for [room] files. *)
Definition demo_run (room : nat) : World nat nat * outcome unit :=
  run_simple_pipeline nat [1] [2; 3] [4] [5] [6; 7] [8; 9; 10] [11; 12]
    nat (disk room) noon demo_fetcher (mkWorld 0 [] []).

End Simple.

(** ** What the runs of the two scripts are measured against *)

Module Measures.

Import Pipeline.

Section Transcript.

Context {Dict Env : Type}.
Variable requests_post :
  string -> gmap string string -> list Dict -> Env -> Env * outcome response.

(** The state of the outside after the requests of an [exchange]. *)
Fixpoint settle (url : string) (headers : gmap string string)
    (bs : list (list Dict)) (e : Env) : Env :=
  match bs with
  | [] => e
  | b :: bs' =>
      let (e', res) := requests_post url headers b e in
      if succeeded (Posted url headers b res)
      then settle url headers bs' e'
      else e'
  end.

(** The lines the loop of [update_supabase_database] prints for its
    requests, the first of them being request [k + 1] of [total]. *)
Fixpoint progress (total k : nat) (evs : list (event Dict)) : list line :=
  match evs with
  | Posted _ _ _ (Returned resp) :: evs' =>
      if bool_decide (status_code resp ∈ [200; 201]%Z)
      then UpdatedBatch (S k) total :: progress total (S k) evs'
      else [ErrorUpdatingBatch (S k) (text resp)]
  | _ => []
  end.

(** The line after the loop. *)
Definition closing (data_type : string) (n : nat)
    (r : outcome (flow bool)) : list line :=
  match r with
  | Returned Continue => [SuccessfullyUpdated n data_type]
  | Returned (Return _) => []
  | Raised x => [ErrorUpdatingSupabase x]
  end.

End Transcript.

Section Effects.

Context {Dict Env : Type}.

(** The files whose write returned, among some events: the paths of
    the writes that returned, in order.  A write that raised is not
    among them, though it may have created or cut its file before it
    raised: see [touched]. *)
Definition saved (evs : list (event Dict)) : list string :=
  omap (fun ev =>
          match ev with
          | Wrote path _ (Returned _) => Some path
          | _ => None
          end) evs.

(** The files a write was attempted on, among some events: the paths
    of all writes, whether they returned or raised, in order.  No other
    file is created or changed. *)
Definition touched (evs : list (event Dict)) : list string :=
  omap (fun ev =>
          match ev with
          | Wrote path _ _ => Some path
          | _ => None
          end) evs.

Definition posted (ev : event Dict) : bool :=
  match ev with
  | Posted _ _ _ _ => true
  | _ => false
  end.

(** A fetch step for the upstream call [c] and the file [path]: it
    returns, after one of three courses.  The call raised: no write is
    attempted and the empty frame is returned.  The call returned a
    frame and the write of its records to [path] raised: the empty
    frame is returned.  Both returned: the frame returned is the frame
    the call returned, and its records are what was handed to the
    write to [path]. *)
Definition fetching (step : M (World Dict Env) (DataFrame Dict))
    (c : import_call) (path : string) : Prop :=
  forall w,
    exists w' df evs,
      step w = (w', Returned df) /\
      lists w' = lists w /\
      trace w' = trace w ++ evs /\
      ((exists e, evs = [Imported c (Raised e)] /\ df = []) \/
       (exists got e,
          evs = [Imported c (Returned got);
                 Wrote path (VRecords got) (Raised e)] /\
          df = []) \/
       evs = [Imported c (Returned df);
              Wrote path (VRecords df) (Returned tt)]).

(** A step of the pipeline for the upstream call [c] and the file
    [path]: it returns, starts with the call [c], asks for no write
    request, keeps the list objects, writes nothing but [path], and that
    if none of its calls raised; its error lines are the exceptions its
    calls raised. *)
Definition contained {A} (step : M (World Dict Env) A) (c : import_call)
    (path : string) : Prop :=
  forall w,
    exists w' v evs out,
      step w = (w', Returned v) /\
      lists w' = lists w /\
      trace w' = trace w ++ evs /\
      stdout w' = stdout w ++ out /\
      (exists res rest, evs = Imported c res :: rest) /\
      Forall (fun ev => posted ev = false) evs /\
      saved evs `sublist_of` [path] /\
      (omap raised evs = [] -> saved evs = [path]) /\
      omap reported out = omap raised evs.

End Effects.

(** The files of a full run, in the order of its steps. *)
Definition full_pipeline_files (self : NFLDataPipeline) : list string :=
  let season := pretty (current_season self) in
  [output_dir self +:+ "/teams.json";
   output_dir self +:+ "/rosters_" +:+ season +:+ ".json";
   output_dir self +:+ "/schedule_" +:+ season +:+ ".json";
   output_dir self +:+ "/injuries_" +:+ season +:+ ".json";
   output_dir self +:+ "/passing_stats_" +:+ season +:+ ".json";
   output_dir self +:+ "/rushing_stats_" +:+ season +:+ ".json";
   output_dir self +:+ "/receiving_stats_" +:+ season +:+ ".json";
   output_dir self +:+ "/projection_dataset.json"].

(** Three list objects for worked examples: a hundred records, fifty
    more, and all of them. *)
Definition demo_parts (script : list (outcome response))
    : World nat (list (outcome response)) :=
  mkWorld {[ 0 := seq 0 100; 1 := seq 100 50; 2 := seq 0 150 ]} script [] [].

(** The upload of the first part, of the second part after it, and of
    the whole. *)
Definition demo_first (script : list (outcome response))
    : World nat (list (outcome response)) * outcome bool :=
  update_supabase_database scripted demo_pipeline "stats" 0
    (demo_parts script).

Definition demo_second (script : list (outcome response))
    : World nat (list (outcome response)) * outcome bool :=
  update_supabase_database scripted demo_pipeline "stats" 1
    (demo_first script).1.

Definition demo_whole (script : list (outcome response))
    : World nat (list (outcome response)) * outcome bool :=
  update_supabase_database scripted demo_pipeline "stats" 2
    (demo_parts script).

End Measures.

(** ** scripts/nfl-data-pipeline.py: the constructor and [main] *)

Module Cli.

Import Pipeline.

Section WithEnvironment.

Variable Dict : Type.
Variable Env : Type.
Variable nfl : import_call -> Env -> Env * outcome (DataFrame Dict).
Variable to_json : DataFrame Dict -> string -> Env -> Env * outcome unit.
Variable json_dump : value Dict -> string -> Env -> Env * outcome unit.
Variable datetime_now_isoformat : Env -> Env * string.

(** [os.getenv] reads the process environment, which [load_dotenv()] has
    filled when the module was loaded; [os.makedirs(path, exist_ok=True)]
    acts on the file system. *)
Variable os_getenv : string -> Env -> option string.
Variable os_makedirs : string -> Env -> Env * outcome unit.

(** The external calls of a process: the creation of the output
    directory, and the calls of the pipeline object. *)
Inductive event : Type :=
| Made (path : string) (res : outcome unit)
| Called (ev : Pipeline.event Dict).

Inductive line : Type :=
| Initialized
| OutputDirectory (dir : string)
| CurrentSeason (season : Z)
| Usage
| Said (l : Pipeline.line).

Record World : Type := mkWorld {
  lists : gmap loc (list Dict);
  env : Env;
  trace : list event;
  stdout : list line
}.

Definition print (l : line) : M World unit :=
  fun w => (mkWorld (lists w) (env w) (trace w) (stdout w ++ [l]),
            Returned tt).

Definition getenv (name : string) : M World (option string) :=
  fun w => (w, Returned (os_getenv name (env w))).

Definition makedirs (path : string) : M World unit :=
  fun w =>
    let (env', res) := os_makedirs path (env w) in
    (mkWorld (lists w) env' (trace w ++ [Made path res]) (stdout w), res).

(** A method of the pipeline object, run in the process: its calls and
    its lines follow those of the process so far. *)
Definition method {A} (m : M (Pipeline.World Dict Env) A) : M World A :=
  fun w =>
    let (p, r) := m (Pipeline.mkWorld (lists w) (env w) [] []) in
    (mkWorld (Pipeline.lists p) (Pipeline.env p)
       (trace w ++ (Called <$> Pipeline.trace p))
       (stdout w ++ (Said <$> Pipeline.stdout p)),
     r).

Definition __init__ (output_dir : string) : M World NFLDataPipeline :=
  let! supabase_url := getenv "NEXT_PUBLIC_SUPABASE_URL" in
  let! supabase_key := getenv "NEXT_PUBLIC_SUPABASE_ANON_KEY" in
  makedirs output_dir ;;
  print Initialized ;;
  print (OutputDirectory output_dir) ;;
  print (CurrentSeason 2024) ;;
  ret (mkPipeline output_dir 2024 supabase_url supabase_key).

(** [argv] is [sys.argv]; [NFLDataPipeline()] is [__init__] with the
    default of its parameter. *)
Definition main (argv : list string) : M World unit :=
  let command :=
    match argv with
    | _ :: command :: _ => command
    | _ => "full"
    end in
  let! pipeline := __init__ "data/nfl" in
  if String.eqb command "full" then
    method (run_full_pipeline nfl to_json json_dump datetime_now_isoformat
              pipeline)
  else if String.eqb command "rosters" then
    method (fetch_roster_data nfl to_json pipeline None) ;; ret tt
  else if String.eqb command "stats" then
    method (fetch_player_stats nfl to_json pipeline None "passing") ;; ret tt
  else if String.eqb command "schedule" then
    method (fetch_schedule_data nfl to_json pipeline None) ;; ret tt
  else if String.eqb command "injuries" then
    method (fetch_injury_reports nfl to_json pipeline) ;; ret tt
  else if String.eqb command "projections" then
    method (create_player_projections_dataset nfl json_dump
              datetime_now_isoformat pipeline None) ;; ret tt
  else
    print Usage.

End WithEnvironment.

Arguments mkWorld {Dict Env} lists env trace stdout.
Arguments lists {Dict Env} w.
Arguments env {Dict Env} w.
Arguments trace {Dict Env} w.
Arguments stdout {Dict Env} w.
Arguments Made {Dict} path res.
Arguments Called {Dict} ev.
Arguments main {Dict Env} nfl to_json json_dump datetime_now_isoformat
  os_getenv os_makedirs argv w.
Arguments __init__ {Dict Env} os_getenv os_makedirs output_dir w.
Arguments method {Dict Env A} m w.

(** The calls of the pipeline object among the calls of a process. *)
Definition calls {Dict} (evs : list (event Dict))
    : list (Pipeline.event Dict) :=
  omap (fun ev =>
          match ev with
          | Called ev => Some ev
          | _ => None
          end) evs.

(** The word [main] takes for its command. *)
Definition command_of (argv : list string) : string :=
  match argv with
  | _ :: command :: _ => command
  | _ => "full"
  end.

(** The upstream call each command starts with. *)
Definition entry_point (command : string) : option import_call :=
  if String.eqb command "full" then Some import_team_desc
  else if String.eqb command "rosters" then Some (import_rosters [2024%Z])
  else if String.eqb command "stats" then
    Some (import_weekly_data [2024%Z] (Some passing_columns))
  else if String.eqb command "schedule" then Some (import_schedules [2024%Z])
  else if String.eqb command "injuries" then Some (import_injuries [2024%Z])
  else if String.eqb command "projections" then
    Some (import_weekly_data [2018; 2019; 2020; 2021; 2022; 2023; 2024]%Z
            None)
  else None.

(** The files of the process. *)
Definition output_files : list string :=
  ["data/nfl/teams.json";
   "data/nfl/rosters_2024.json";
   "data/nfl/schedule_2024.json";
   "data/nfl/injuries_2024.json";
   "data/nfl/passing_stats_2024.json";
   "data/nfl/rushing_stats_2024.json";
   "data/nfl/receiving_stats_2024.json";
   "data/nfl/projection_dataset.json"].

(** Two process environments for worked examples, one without the two
    variables and one with them, and two file systems: one in which the
    directory can be made, one mounted read-only. *)
Definition unset {E} (name : string) (e : E) : option string := None.

Definition configured {E} (name : string) (e : E) : option string :=
  if String.eqb name "NEXT_PUBLIC_SUPABASE_URL"
  then Some "https://db.example"
  else if String.eqb name "NEXT_PUBLIC_SUPABASE_ANON_KEY"
  then Some "anon-key"
  else None.

Definition made {E} (path : string) (e : E) : E * outcome unit :=
  (e, Returned tt).

Definition read_only {E} (path : string) (e : E) : E * outcome unit :=
  (e, Raised (Exception "Read-only file system")).

(** The script run with [argv], the roster import being down. *)
Definition demo_main
    (os_makedirs : string -> unit -> unit * outcome unit)
    (argv : list string) : World nat unit * outcome unit :=
  main rosters_down written written noon unset os_makedirs argv
    (mkWorld ∅ tt [] []).

End Cli.

(** ** scripts/simple-nfl-data-fetch.py: the constructor and [main] *)

Module SimpleCli.

Import Simple.

Section WithEnvironment.

Variable Dict : Type.
Variable teams : list Dict.
Variable sample_players : list Dict.
Variable passing_stats rushing_stats receiving_stats : list Dict.
Variable weekly_stats seasonal_stats : list Dict.
Variable Env : Type.
Variable json_dump : value Dict -> string -> Env -> Env * outcome unit.
Variable datetime_now_isoformat : Env -> Env * string.

(** [os.makedirs(path, exist_ok=True)] *)
Variable os_makedirs : string -> Env -> Env * outcome unit.

(** The external calls of a process: the creation of the output
    directory, and the calls of the fetcher object. *)
Inductive event : Type :=
| Made (path : string) (res : outcome unit)
| Called (ev : Simple.event Dict).

Inductive line : Type :=
| Initialized
| OutputDirectory (dir : string)
| CurrentSeason (season : Z)
| Said (l : Simple.line).

Record World : Type := mkWorld {
  env : Env;
  trace : list event;
  stdout : list line
}.

Definition print (l : line) : M World unit :=
  fun w => (mkWorld (env w) (trace w) (stdout w ++ [l]), Returned tt).

Definition makedirs (path : string) : M World unit :=
  fun w =>
    let (env', res) := os_makedirs path (env w) in
    (mkWorld env' (trace w ++ [Made path res]) (stdout w), res).

(** A method of the fetcher object, run in the process: its calls and
    its lines follow those of the process so far. *)
Definition method {A} (m : M (Simple.World Dict Env) A) : M World A :=
  fun w =>
    let (p, r) := m (Simple.mkWorld (env w) [] []) in
    (mkWorld (Simple.env p)
       (trace w ++ (Called <$> Simple.trace p))
       (stdout w ++ (Said <$> Simple.stdout p)),
     r).

Definition __init__ (output_dir : string) : M World SimpleNFLDataFetcher :=
  makedirs output_dir ;;
  print Initialized ;;
  print (OutputDirectory output_dir) ;;
  print (CurrentSeason 2024) ;;
  ret (mkFetcher output_dir 2024).

Definition main : M World unit :=
  let! fetcher := __init__ "data/nfl" in
  method (run_simple_pipeline Dict teams sample_players passing_stats
            rushing_stats receiving_stats weekly_stats seasonal_stats Env
            json_dump datetime_now_isoformat fetcher).

(** The files of a run of the simplified pipeline with what they
    receive, in the order written; [created_at] is the reading of the
    clock. *)
Definition simple_pipeline_output (self : SimpleNFLDataFetcher)
    (created_at : string) : list (string * value Dict) :=
  [(Simple.output_dir self +:+ "/teams.json", VRecords teams);
   (Simple.output_dir self +:+ "/rosters_2024.json", VRecords sample_players);
   (Simple.output_dir self +:+ "/passing_stats_2024.json",
    VRecords passing_stats);
   (Simple.output_dir self +:+ "/rushing_stats_2024.json",
    VRecords rushing_stats);
   (Simple.output_dir self +:+ "/receiving_stats_2024.json",
    VRecords receiving_stats);
   (Simple.output_dir self +:+ "/projection_dataset.json",
    VDict
      [("weekly_stats", VRecords weekly_stats);
       ("seasonal_stats", VRecords seasonal_stats);
       ("metadata",
        VDict
          [("created_at", VStr created_at);
           ("seasons", VInts [2023; 2024]%Z);
           ("description",
            VStr "Sample dataset for projection modeling")])])].

End WithEnvironment.

Arguments mkWorld {Dict Env} env trace stdout.
Arguments env {Dict Env} w.
Arguments trace {Dict Env} w.
Arguments stdout {Dict Env} w.
Arguments Made {Dict} path res.
Arguments Called {Dict} ev.
Arguments method {Dict Env A} m w.
Arguments __init__ {Dict Env} os_makedirs output_dir w.

(** The writes that returned, among some events: their paths with what
    was handed to them, in order.  A write that raised is not among
    them, though it may have created or cut its file before it
    raised. *)
Definition written {Dict} (evs : list (Simple.event Dict))
    : list (string * value Dict) :=
  omap (fun ev =>
          match ev with
          | Wrote path v (Returned _) => Some (path, v)
          | _ => None
          end) evs.

(** The readings of the clock among some events, in order. *)
Definition readings {Dict} (evs : list (Simple.event Dict)) : list string :=
  omap (fun ev =>
          match ev with
          | Clock t => Some t
          | _ => None
          end) evs.

(** The calls of the fetcher object among the calls of a process. *)
Definition calls {Dict} (evs : list (event Dict))
    : list (Simple.event Dict) :=
  omap (fun ev =>
          match ev with
          | Called ev => Some ev
          | _ => None
          end) evs.

(** Two file systems for worked examples: one in which the directory
    can be made, one mounted read-only. *)
Definition made (path : string) (n : nat) : nat * outcome unit :=
  (n, Returned tt).

Definition read_only (path : string) (n : nat) : nat * outcome unit :=
  (n, Raised (Exception "Read-only file system")).

(** The script on the sample tables of [Simple.demo_run], with room for
    [room] files. *)
Definition demo_main (os_makedirs : string -> nat -> nat * outcome unit)
    (room : nat) : World nat nat * outcome unit :=
  main nat [1] [2; 3] [4] [5] [6; 7] [8; 9; 10] [11; 12] nat (disk room) noon
    os_makedirs (mkWorld 0 [] []).

End SimpleCli.

(** ** Properties of scripts/nfl-data-pipeline.py *)

Module PipelineFacts.

Import Pipeline.

Section UploaderFacts.

Context {Dict Env : Type}.
Variable requests_post :
  string -> gmap string string -> list Dict -> Env -> Env * outcome response.

Implicit Types (w : World Dict Env) (l : list Dict) (evs : list (event Dict)).

Lemma range_from_0 n s :
  range 0 n s = (fun k => k * s) <$> seq 0 ((n + s - 1) / s).
Proof. unfold range. by rewrite Nat.sub_0_r. Qed.

Lemma slice_batch l i s : slice l i (i + s) = take s (drop i l).
Proof. unfold slice. f_equal. lia. Qed.

Lemma batches_eq l :
  batches l =
  (fun k => take batch_size (drop (k * batch_size) l))
    <$> seq 0 ((length l + batch_size - 1) / batch_size).
Proof.
  unfold batches. rewrite range_from_0, <- list_fmap_compose.
  apply list_fmap_ext. intros _ k _. simpl. apply slice_batch.
Qed.

Lemma concat_chunks l s m :
  concat ((fun k => take s (drop (k * s) l)) <$> seq 0 m) = take (m * s) l.
Proof.
  induction m as [|m IH]; [done|].
  rewrite seq_S, fmap_app, concat_app, IH. simpl.
  rewrite app_nil_r, take_take_drop. f_equal. lia.
Qed.

Lemma batches_count l :
  length (batches l) = (length l + batch_size - 1) / batch_size.
Proof. rewrite batches_eq, length_fmap. apply length_seq. Qed.

Lemma concat_batches l : concat (batches l) = l.
Proof.
  rewrite batches_eq, concat_chunks. apply take_ge.
  unfold batch_size.
  pose proof (Nat.div_mod_eq (length l + 100 - 1) 100).
  pose proof (Nat.mod_upper_bound (length l + 100 - 1) 100 ltac:(lia)).
  lia.
Qed.

Lemma batches_lookup l k b :
  batches l !! k = Some b ->
  b = take batch_size (drop (k * batch_size) l) /\
  0 < length b <= batch_size /\ k * batch_size < length l.
Proof.
  rewrite batches_eq, list_lookup_fmap.
  intros H. apply fmap_Some in H as (j & Hj & ->).
  apply lookup_seq in Hj as [-> Hlt]. rewrite Nat.add_0_l.
  split; [done|].
  rewrite length_take, length_drop. unfold batch_size in *.
  pose proof (Nat.div_mod_eq (length l + 100 - 1) 100).
  pose proof (Nat.mod_upper_bound (length l + 100 - 1) 100 ltac:(lia)).
  lia.
Qed.

(** *** The requests of a run *)

(** Case analysis on the answer to the request at the head of an
    [exchange]. *)
Ltac answer e' :=
  match goal with
  | |- context [requests_post ?u ?h ?b ?e] =>
      destruct (requests_post u h b e) as [e' [?resp|?x]]; simpl;
      [case_bool_decide; simpl|]
  end.

Lemma exchange_bodies url headers bs e :
  bodies (exchange requests_post url headers bs e)
  = take (length (exchange requests_post url headers bs e)) bs.
Proof.
  revert e. induction bs as [|b bs IH]; intros e; [done|].
  simpl. answer e'; f_equal; auto.
Qed.

Lemma exchange_posted url headers bs e ev :
  ev ∈ exchange requests_post url headers bs e ->
  exists b res, ev = Posted url headers b res.
Proof.
  revert e. induction bs as [|b bs IH]; intros e; simpl.
  - by intros ?%elem_of_nil.
  - answer e'; intros [->|Hin]%elem_of_cons; eauto;
      by apply elem_of_nil in Hin.
Qed.

Lemma exchange_stops url headers bs e i ev :
  exchange requests_post url headers bs e !! i = Some ev ->
  succeeded ev = false ->
  length (exchange requests_post url headers bs e) = S i.
Proof.
  revert e i. induction bs as [|b bs IH]; intros e i; simpl; [done|].
  answer e'; destruct i as [|i]; simpl; try done.
  - intros [= <-]. unfold succeeded. by rewrite bool_decide_eq_true_2.
  - intros Hi Hev. f_equal. by eapply IH.
Qed.

Lemma exchange_complete url headers bs e :
  forallb succeeded (exchange requests_post url headers bs e) = true ->
  length (exchange requests_post url headers bs e) = length bs.
Proof.
  revert e. induction bs as [|b bs IH]; intros e; simpl; [done|].
  answer e'; try done. intros H'. f_equal. auto.
Qed.

Lemma exchange_accepted url headers bs e :
  (forall u h b e0,
     succeeded (Posted u h b (requests_post u h b e0).2) = true) ->
  Forall (fun ev => succeeded ev = true)
    (exchange requests_post url headers bs e).
Proof.
  intros Hok. revert e.
  induction bs as [|b bs IH]; intros e; cbn [exchange]; [done|].
  specialize (Hok url headers b e).
  destruct (requests_post url headers b e) as [e' res].
  cbn [snd] in Hok. rewrite Hok. by constructor.
Qed.

Lemma exchange_short url headers bs e :
  length (exchange requests_post url headers bs e) < length bs ->
  exists ev,
    last (exchange requests_post url headers bs e) = Some ev /\
    succeeded ev = false.
Proof.
  revert e. induction bs as [|b bs IH]; intros e; cbn [exchange length].
  - lia.
  - destruct (requests_post url headers b e) as [e' res].
    destruct (succeeded (Posted url headers b res)) eqn:Hok.
    + cbn [length]. intros Hlt.
      destruct (IH e' ltac:(lia)) as (ev & Hlast & Hfail).
      exists ev. split; [|done].
      destruct (exchange requests_post url headers bs e'); [done|].
      exact Hlast.
    + intros _. by exists (Posted url headers b res).
Qed.

Lemma exchange_lookup url headers bs e k u h b res :
  exchange requests_post url headers bs e !! k = Some (Posted u h b res) ->
  bs !! k = Some b.
Proof.
  revert e k. induction bs as [|b0 bs IH]; intros e k; cbn [exchange];
    [done|].
  destruct (requests_post url headers b0 e) as [e' res0].
  destruct k as [|k].
  - by intros [= _ _ -> _].
  - cbn [lookup list_lookup].
    destruct (succeeded (Posted url headers b0 res0)); [|done].
    apply IH.
Qed.

Lemma exchange_first url headers b bs e :
  exists res rest,
    exchange requests_post url headers (b :: bs) e
    = Posted url headers b res :: rest.
Proof.
  cbn [exchange]. destruct (requests_post url headers b e) as [e' res].
  by eauto.
Qed.

Lemma loop_result_continue evs :
  loop_result evs = Returned Continue <-> forallb succeeded evs = true.
Proof.
  induction evs as [|ev evs IH]; simpl; [done|].
  destruct (succeeded ev); simpl; [done|].
  split; [|done]. by destruct ev as [? ? ? []| | |].
Qed.

Lemma loop_result_return evs b :
  loop_result evs = Returned (Return b) -> b = false.
Proof.
  induction evs as [|ev evs IH]; simpl; [done|].
  destruct (succeeded ev); [done|].
  destruct ev as [? ? ? []| | |]; congruence.
Qed.

Lemma exchange_raised url headers bs e i u h b x :
  exchange requests_post url headers bs e !! i
    = Some (Posted u h b (Raised x)) ->
  loop_result (exchange requests_post url headers bs e) = Raised x.
Proof.
  revert e i. induction bs as [|b0 bs IH]; intros e i; simpl; [done|].
  answer e'; destruct i as [|i]; simpl; try done.
  - apply IH.
  - by intros [= -> -> -> ->].
Qed.

(** *** The loop and the function against the requests of a run *)

Lemma for_in_cons {W A R} (x : A) xs (body : A -> M W (flow R)) (w : W) :
  for_in (x :: xs) body w =
  match body x w with
  | (w1, Returned Continue) => for_in xs body w1
  | (w1, Returned (Return r)) => (w1, Returned (Return r))
  | (w1, Raised e) => (w1, Raised e)
  end.
Proof. simpl. unfold bind. by destruct (body x w) as [w1 [[|r]|e]]. Qed.

(** One iteration: one request, recorded with its answer; the list
    objects stay as they are. *)
Lemma send_batch_run url headers data i w e' res :
  requests_post url headers (slice (lists w !!! data) i (i + batch_size))
    (env w) = (e', res) ->
  exists out,
    send_batch requests_post url headers data i w =
    (mkWorld (lists w) e'
       (trace w ++
          [Posted url headers
             (slice (lists w !!! data) i (i + batch_size)) res])
       (stdout w ++ out),
     match res with
     | Returned resp =>
         if bool_decide (status_code resp ∈ [200; 201]%Z)
         then Returned Continue else Returned (Return false)
     | Raised x => Raised x
     end).
Proof.
  intros Hpost.
  unfold send_batch, getslice, post, external, len, deref, print, bind, ret.
  rewrite Hpost. destruct res as [resp|x].
  - destruct (decide (status_code resp ∈ [200; 201]%Z)) as [Hin|Hout].
    + rewrite bool_decide_eq_false_2 by (intros Hn; by apply Hn).
      rewrite bool_decide_eq_true_2 by done. eauto.
    + rewrite (bool_decide_eq_true_2 (_ ∉ _)) by done.
      rewrite bool_decide_eq_false_2 by done. eauto.
  - exists []. by rewrite app_nil_r.
Qed.

Lemma send_loop url headers data (ixs : list nat) w w' r :
  for_in ixs (send_batch requests_post url headers data) w = (w', r) ->
  lists w' = lists w /\
  trace w' =
    trace w ++
    exchange requests_post url headers
      ((fun i => slice (lists w !!! data) i (i + batch_size)) <$> ixs)
      (env w) /\
  r = loop_result
        (exchange requests_post url headers
           ((fun i => slice (lists w !!! data) i (i + batch_size)) <$> ixs)
           (env w)).
Proof.
  revert w. induction ixs as [|i ixs IH]; intros w.
  - intros [= <- <-]. simpl. by rewrite app_nil_r.
  - rewrite for_in_cons, fmap_cons. cbn [exchange].
    destruct (requests_post url headers _ (env w)) as [e' res] eqn:Hpost.
    destruct (send_batch_run _ _ _ _ _ _ _ Hpost) as [out ->].
    cbn [loop_result succeeded].
    destruct res as [resp|x].
    + case_bool_decide.
      * intros (Hl & Ht & Hr)%IH. simpl in Hl, Ht, Hr.
        rewrite Hl, Ht, <- app_assoc. done.
      * by intros [= <- <-].
    + by intros [= <- <-].
Qed.

Lemma upload_skipped self data_type data w :
  truthy (supabase_url self) = false \/ truthy (supabase_key self) = false ->
  update_supabase_database requests_post self data_type data w =
  (mkWorld (lists w) (env w) (trace w) (stdout w ++ [CredentialsNotFound]),
   Returned false).
Proof.
  intros H. unfold update_supabase_database.
  replace (negb (truthy (supabase_url self)) || negb (truthy (supabase_key self)))
    with true by (destruct H as [-> | ->]; by rewrite ?orb_true_r).
  done.
Qed.

Lemma upload_run self data_type data w w' r :
  truthy (supabase_url self) = true ->
  truthy (supabase_key self) = true ->
  update_supabase_database requests_post self data_type data w = (w', r) ->
  lists w' = lists w /\
  trace w' =
    trace w ++
    exchange requests_post (make_url self data_type) (make_headers self)
      (batches (lists w !!! data)) (env w) /\
  r = Returned
        (forallb succeeded
           (exchange requests_post (make_url self data_type)
              (make_headers self) (batches (lists w !!! data)) (env w))) /\
  forall x,
    loop_result
      (exchange requests_post (make_url self data_type) (make_headers self)
         (batches (lists w !!! data)) (env w)) = Raised x ->
    last (stdout w') = Some (ErrorUpdatingSupabase x).
Proof.
  intros Hurl Hkey. unfold update_supabase_database.
  rewrite Hurl, Hkey. cbn [negb orb].
  unfold try_except, len, deref, print, bind at 1 2 3 4 5 6, ret.
  destruct (for_in _ _ _) as [w1 f] eqn:Hloop.
  apply send_loop in Hloop as (Hl & Ht & Hf).
  set (evs := exchange requests_post (make_url self data_type)
                (make_headers self) (batches (lists w !!! data)) (env w)).
  change (lists w1 = lists w) in Hl.
  change (trace w1 = trace w ++ evs) in Ht.
  change (f = loop_result evs) in Hf.
  pose proof (loop_result_continue evs) as Hiff.
  rewrite <- Hf in *.
  destruct f as [[|b]|x].
  - unfold bind. intros [= <- <-]. cbn.
    repeat split; [done..| |done]. f_equal. symmetry. by apply Hiff.
  - intros [= <- <-].
    repeat split; [done..| |done].
    symmetry in Hf. apply loop_result_return in Hf as ->. f_equal.
    destruct (forallb _ _); [|done]. by destruct Hiff as [_ ?%symmetry].
  - unfold bind. intros [= <- <-]. cbn.
    repeat split; [done..| |].
    + f_equal. destruct (forallb _ _); [|done].
      by destruct Hiff as [_ ?%symmetry].
    + intros ? [= ->]. by rewrite last_snoc.
Qed.

Lemma forallb_failed evs i ev :
  evs !! i = Some ev -> succeeded ev = false ->
  forallb succeeded evs = false.
Proof.
  revert i. induction evs as [|ev0 evs IH]; intros [|i]; simpl; try done.
  - by intros [= ->] ->.
  - intros Hi Hev. rewrite (IH _ Hi Hev). apply andb_false_r.
Qed.

Lemma forallb_Forall evs :
  Forall (fun ev => succeeded ev = true) evs ->
  forallb succeeded evs = true.
Proof. induction 1 as [|ev evs Hev _ IH]; simpl; [done|]. by rewrite Hev. Qed.

Lemma succeeded_status u h b res :
  succeeded (Posted (Dict := Dict) u h b res) = true <->
  exists resp,
    res = Returned resp /\
    (status_code resp = 200 \/ status_code resp = 201)%Z.
Proof.
  unfold succeeded. destruct res as [resp|x].
  - rewrite bool_decide_eq_true. split.
    + intros Hin. exists resp. split; [done|].
      repeat (apply elem_of_cons in Hin as [Hin|Hin]; [by auto|]).
      by apply elem_of_nil in Hin.
    + intros (? & [= <-] & [-> | ->]); by repeat constructor.
  - split; [done|]. by intros (? & ? & _).
Qed.

(** Every run, with or without credentials, in one statement. *)
Lemma upload_cases self data_type data w w' r :
  update_supabase_database requests_post self data_type data w = (w', r) ->
  lists w' = lists w /\
  exists evs,
    trace w' = trace w ++ evs /\
    r = Returned
          (truthy (supabase_url self) && truthy (supabase_key self)
           && forallb succeeded evs) /\
    (truthy (supabase_url self) && truthy (supabase_key self) = false
       /\ evs = [] \/
     evs = exchange requests_post (make_url self data_type)
             (make_headers self) (batches (lists w !!! data)) (env w)) /\
    forall x,
      evs <> [] -> loop_result evs = Raised x ->
      last (stdout w') = Some (ErrorUpdatingSupabase x).
Proof.
  intros Hrun.
  destruct (truthy (supabase_url self)) eqn:Hurl;
    [destruct (truthy (supabase_key self)) eqn:Hkey|].
  - destruct (upload_run _ _ _ _ _ _ Hurl Hkey Hrun) as (Hl & Ht & Hr & Hx).
    split; [done|]. eexists. split; [done|]. split; [done|].
    split; [by right|]. intros x _. apply Hx.
  - rewrite upload_skipped in Hrun by auto. injection Hrun as <- <-.
    split; [done|]. exists []. rewrite app_nil_r. by repeat split; auto.
  - rewrite upload_skipped in Hrun by auto. injection Hrun as <- <-.
    split; [done|]. exists []. rewrite app_nil_r. by repeat split; auto.
Qed.

(** *** The claims about the uploader *)

(** C1. The batches the uploader forms are the consecutive slices of at
    most 100 records of the input, [take 100 (drop (100 k) l)] for the
    [k]-th, and their concatenation is the input; the bodies it sends
    are, in the order sent, the first of those batches.  With
    credentials it goes on sending until a request does not succeed: if
    it has sent fewer bodies than there are batches, its last request
    did not succeed; and if every request it made succeeded (as when
    the server answers each request with 200 or 201), the bodies sent
    are all the batches, their concatenation in the order sent is the
    input, and the upload returns true.  An upload that returns true
    has sent the whole input. *)
Theorem C1_batches_partition_input self data_type data w w' r :
  update_supabase_database requests_post self data_type data w = (w', r) ->
  concat (batches (lists w !!! data)) = lists w !!! data /\
  (forall k b,
     batches (lists w !!! data) !! k = Some b ->
     b = take 100 (drop (k * 100) (lists w !!! data)) /\
     length b <= 100) /\
  exists evs,
    trace w' = trace w ++ evs /\
    bodies evs = take (length evs) (batches (lists w !!! data)) /\
    (r = Returned true -> concat (bodies evs) = lists w !!! data) /\
    (truthy (supabase_url self) = true ->
     truthy (supabase_key self) = true ->
     (length evs < length (batches (lists w !!! data)) ->
      exists ev, last evs = Some ev /\ succeeded ev = false) /\
     ((forall u h b e,
         succeeded (Posted u h b (requests_post u h b e).2) = true) ->
      Forall (fun ev => succeeded ev = true) evs) /\
     (Forall (fun ev => succeeded ev = true) evs ->
      bodies evs = batches (lists w !!! data) /\
      concat (bodies evs) = lists w !!! data /\
      r = Returned true)).
Proof.
  intros (_ & evs & Ht & Hr & Hevs & _)%upload_cases.
  split; [apply concat_batches|]. split.
  - intros k b (Hb & Hlen & _)%batches_lookup. unfold batch_size in *.
    split; [done|lia].
  - exists evs. split; [done|].
    destruct Hevs as [[Hcreds ->] | Hevs].
    + split; [done|]. split; [rewrite Hcreds in Hr; by rewrite Hr|].
      intros Hurl Hkey. by rewrite Hurl, Hkey in Hcreds.
    + split; [rewrite Hevs; apply exchange_bodies|].
      assert (forallb succeeded evs = true ->
              bodies evs = batches (lists w !!! data) /\
              concat (bodies evs) = lists w !!! data) as Hall.
      { intros Hall.
        rewrite Hevs, exchange_bodies, exchange_complete
          by (by rewrite <- Hevs).
        rewrite firstn_all. split; [done|apply concat_batches]. }
      split.
      * intros Htrue. rewrite Htrue in Hr. injection Hr as Hok.
        symmetry in Hok. apply andb_true_iff in Hok as [_ Hok].
        by apply Hall.
      * intros Hurl Hkey. split; [|split].
        -- rewrite Hevs. apply exchange_short.
        -- rewrite Hevs. apply exchange_accepted.
        -- intros Hok%forallb_Forall.
           destruct (Hall Hok) as [Hb Hc].
           by rewrite Hr, Hurl, Hkey, Hok.
Qed.

(** C2. With credentials, a request succeeded iff it was answered with
    status 200 or 201; the requests carry the leading batches in
    order; a request answered with any other status is the last one and
    the upload returns false; if every request succeeded, every batch
    was sent and the upload returns true.  With three batches, a second
    request that did not succeed leaves exactly two requests, and
    false. *)
Theorem C2_abort_on_first_failed_batch self data_type data w w' r :
  truthy (supabase_url self) = true ->
  truthy (supabase_key self) = true ->
  update_supabase_database requests_post self data_type data w = (w', r) ->
  (forall u h b res,
     succeeded (Posted (Dict := Dict) u h b res) = true <->
     exists resp,
       res = Returned resp /\
       (status_code resp = 200 \/ status_code resp = 201)%Z) /\
  exists evs,
    trace w' = trace w ++ evs /\
    bodies evs = take (length evs) (batches (lists w !!! data)) /\
    (forall i u h b resp,
       evs !! i = Some (Posted u h b (Returned resp)) ->
       status_code resp <> 200%Z -> status_code resp <> 201%Z ->
       length evs = S i /\ r = Returned false) /\
    (Forall (fun ev => succeeded ev = true) evs ->
     length evs = length (batches (lists w !!! data)) /\
     r = Returned true) /\
    (length (batches (lists w !!! data)) = 3 ->
     forall ev,
       evs !! 1 = Some ev -> succeeded ev = false ->
       length evs = 2 /\ r = Returned false).
Proof.
  intros Hurl Hkey (_ & Ht & Hr & _)%upload_run; [|done..].
  split; [apply succeeded_status|].
  eexists. split; [exact Ht|]. rewrite Hr.
  split; [apply exchange_bodies|]. split; [|split].
  - intros i u h b resp Hi H200 H201.
    assert (succeeded (Posted u h b (Returned resp)) = false) as Hfail.
    { destruct (succeeded _) eqn:Hs; [|done].
      apply succeeded_status in Hs as (? & [= <-] & [? | ?]); done. }
    split; [by eapply exchange_stops|].
    f_equal. by eapply forallb_failed.
  - intros Hall%forallb_Forall. rewrite Hall.
    split; [by apply exchange_complete|done].
  - intros _ ev Hi Hfail.
    split; [by eapply exchange_stops|].
    f_equal. by eapply forallb_failed.
Qed.

(** C3. If the endpoint base URL or the access key is absent ([None], or
    the empty string, which the guard of the function treats alike),
    nothing is requested: the record of external calls, the state
    outside and the list objects are as before, one line is printed, and
    the result is false. *)
Theorem C3_no_credentials_no_calls self data_type data w :
  truthy (supabase_url self) = false \/ truthy (supabase_key self) = false ->
  update_supabase_database requests_post self data_type data w =
  (mkWorld (lists w) (env w) (trace w) (stdout w ++ [CredentialsNotFound]),
   Returned false).
Proof. apply upload_skipped. Qed.

(** C4. The name in the request path is the entry of the table for the
    three data types it lists and the data type itself otherwise; every
    request of an upload goes to [{base_url}/rest/v1/{that name}]; and
    an upload of a list that is not empty, with a base URL and a key
    that are not empty, makes such a request: its first external call
    is one. *)
Theorem C4_resource_name_in_url self data_type data base_url w w' r :
  supabase_url self = Some base_url ->
  update_supabase_database requests_post self data_type data w = (w', r) ->
  table_name "players" = "nfl_players" /\
  table_name "stats" = "player_game_stats" /\
  table_name "projections" = "player_projections" /\
  (data_type <> "players" -> data_type <> "stats" ->
   data_type <> "projections" -> table_name data_type = data_type) /\
  exists evs,
    trace w' = trace w ++ evs /\
    (forall ev,
       ev ∈ evs ->
       exists h b res,
         ev = Posted (base_url +:+ "/rest/v1/" +:+ table_name data_type)
                h b res) /\
    (base_url <> "" -> truthy (supabase_key self) = true ->
     lists w !!! data <> [] ->
     exists h b res rest,
       evs = Posted (base_url +:+ "/rest/v1/" +:+ table_name data_type)
               h b res :: rest).
Proof.
  intros Hbase (_ & evs & Ht & _ & Hevs & _)%upload_cases.
  split; [done|]. split; [done|]. split; [done|]. split.
  - intros H1 H2 H3. unfold table_name, table_mapping.
    rewrite !lookup_insert_ne by congruence.
    by rewrite lookup_singleton_ne by congruence.
  - exists evs. split; [done|]. split.
    + intros ev Hin.
      destruct Hevs as [[_ ->] | ->]; [by apply elem_of_nil in Hin|].
      apply exchange_posted in Hin as (b & res & ->).
      unfold make_url. rewrite Hbase. by eauto.
    + intros Hne Hkey Hdata.
      destruct Hevs as [[Hcreds _] | ->].
      * rewrite Hbase, Hkey in Hcreds. cbn [truthy] in Hcreds.
        apply String.eqb_neq in Hne. by rewrite Hne in Hcreds.
      * pose proof (batches_count (lists w !!! data)) as Hcount.
        unfold batch_size in Hcount.
        destruct (batches (lists w !!! data)) as [|b bs].
        { destruct (lists w !!! data) as [|x l]; [done|].
          cbn [length] in Hcount.
          pose proof (Nat.div_mod_eq (S (length l) + 100 - 1) 100).
          pose proof (Nat.mod_upper_bound (S (length l) + 100 - 1) 100
                        ltac:(lia)).
          lia. }
        destruct (exchange_first (make_url self data_type)
                    (make_headers self) b bs (env w)) as (res & rest & ->).
        unfold make_url. rewrite Hbase. by eauto.
Qed.

(** C5. A request that raised is the last request of the upload; the
    upload then returns false, as after a status other than 200 and 201,
    and the last line printed reports the exception.  No upload ends by
    raising. *)
Theorem C5_exception_aborts_like_bad_status self data_type data w w' r :
  update_supabase_database requests_post self data_type data w = (w', r) ->
  (exists b, r = Returned b) /\
  exists evs,
    trace w' = trace w ++ evs /\
    forall i u h b x,
      evs !! i = Some (Posted u h b (Raised x)) ->
      length evs = S i /\
      r = Returned false /\
      last (stdout w') = Some (ErrorUpdatingSupabase x).
Proof.
  intros (_ & evs & Ht & Hr & Hevs & Hlog)%upload_cases.
  split; [by eauto|]. exists evs. split; [done|].
  intros i u h b x Hi.
  destruct Hevs as [[_ ->] | Hevs]; [done|].
  assert (length evs = S i) as Hlen
    by (rewrite Hevs in *; by eapply exchange_stops).
  split; [done|]. split.
  - rewrite Hr, (forallb_failed _ _ _ Hi) by done.
    by rewrite andb_false_r.
  - apply Hlog; [by destruct evs|].
    rewrite Hevs in *. by eapply exchange_raised.
Qed.

(** C6. With credentials and an empty list of records, nothing is
    requested and the result is true. *)
Theorem C6_empty_input_succeeds self data_type data w w' r :
  truthy (supabase_url self) = true ->
  truthy (supabase_key self) = true ->
  lists w !!! data = [] ->
  update_supabase_database requests_post self data_type data w = (w', r) ->
  trace w' = trace w /\ r = Returned true.
Proof.
  intros Hurl Hkey Hnil (_ & Ht & Hr & _)%upload_run; [|done..].
  rewrite Hnil in Ht, Hr. change (batches []) with (@nil (list Dict)) in *.
  simpl in Ht, Hr. by rewrite app_nil_r in Ht.
Qed.

(** C7. With credentials and 250 records, if every request succeeded
    (as when the server answers each request with 200 or 201) there were
    exactly three requests, with bodies of 100, 100 and 50 records in
    this order, and the result is true. *)
Theorem C7_250_records_three_batches self data_type data w w' r :
  truthy (supabase_url self) = true ->
  truthy (supabase_key self) = true ->
  length (lists w !!! data) = 250 ->
  update_supabase_database requests_post self data_type data w = (w', r) ->
  exists evs,
    trace w' = trace w ++ evs /\
    (forall ev, ev ∈ evs -> exists u h b res, ev = Posted u h b res) /\
    ((forall u h b e,
        succeeded (Posted u h b (requests_post u h b e).2) = true) ->
     Forall (fun ev => succeeded ev = true) evs) /\
    (Forall (fun ev => succeeded ev = true) evs ->
     length evs = 3 /\
     length <$> bodies evs = [100; 100; 50] /\
     r = Returned true).
Proof.
  intros Hurl Hkey Hlen (_ & Ht & Hr & _)%upload_run; [|done..].
  eexists. split; [exact Ht|]. split; [|split].
  - intros ev (b & res & ->)%exchange_posted. by eauto.
  - apply exchange_accepted.
  - intros Hall%forallb_Forall. rewrite Hr, Hall.
    pose proof (exchange_complete _ _ _ _ Hall) as Hcount.
    rewrite exchange_bodies, Hcount, firstn_all.
    split; [by rewrite batches_count, Hlen|]. split; [|done].
    rewrite batches_eq, Hlen.
    change ((250 + batch_size - 1) / batch_size) with 3.
    cbn [seq fmap list_fmap].
    rewrite !length_take, !length_drop, Hlen. done.
Qed.

(** C10. An upload leaves every list object of the caller as it was, the
    list it was given among them, whatever it returns; and it
    returns. *)
Theorem C10_input_list_unchanged self data_type data w w' r :
  update_supabase_database requests_post self data_type data w = (w', r) ->
  lists w' = lists w /\
  lists w' !!! data = lists w !!! data /\
  exists b, r = Returned b.
Proof.
  intros (Hl & evs & _ & Hr & _)%upload_cases.
  rewrite Hl. by eauto.
Qed.

End UploaderFacts.

(** *** The fetch steps and the full pipeline *)

Section FetchFacts.

Context {Dict Env : Type}.
Variable nfl : import_call -> Env -> Env * outcome (DataFrame Dict).
Variable to_json : DataFrame Dict -> string -> Env -> Env * outcome unit.
Variable json_dump : value Dict -> string -> Env -> Env * outcome unit.
Variable datetime_now_isoformat : Env -> Env * string.

Implicit Types (w : World Dict Env) (self : NFLDataPipeline).

Lemma bind_returned {W A B} (c : M W A) (k : A -> M W B) (w w1 : W) (a : A) :
  c w = (w1, Returned a) -> bind c k w = k a w1.
Proof. unfold bind. by intros ->. Qed.

(** Membership in an explicit list of events, one event at a time. *)
Ltac pick_event H :=
  repeat (apply elem_of_cons in H as [-> | H]; [|]);
  try (by apply elem_of_nil in H).

(** The steps share one shape: a line, then under [try] an upstream call,
    a line, a file written, a line.  Run the step on every outcome of
    its two external calls. *)
Ltac run_step :=
  intros w;
  unfold bind, try_except, import, df_to_json, external, print, ret;
  cbn [lists env trace stdout];
  match goal with
  | |- context [nfl ?c (env ?w0)] =>
      destruct (nfl c (env w0)) as [env1 [df|e1]]
  end;
  [match goal with
   | |- context [to_json ?d ?p ?env1] =>
       destruct (to_json d p env1) as [env2 [[]|e2]]
   end|];
  (do 4 eexists; split; [reflexivity|]; split;
   [cbn [trace]; rewrite <- ?app_assoc; reflexivity|]);
  intros ev e Hin Hraised; pick_event Hin;
  try discriminate Hraised;
  injection Hraised as <-;
  (split; [reflexivity|]; split; [reflexivity|]);
  eexists; (split; [cbn [stdout]; apply last_snoc|reflexivity]).

Lemma fetch_roster_data_catching self years :
  catching (fetch_roster_data nfl to_json self years)
    (import_rosters (default [current_season self] years)) [].
Proof. unfold fetch_roster_data. run_step. Qed.

Lemma fetch_player_stats_catching self years stat_type :
  catching (fetch_player_stats nfl to_json self years stat_type)
    (import_weekly_data (default [current_season self] years)
       (weekly_columns stat_type)) [].
Proof. unfold fetch_player_stats. run_step. Qed.

Lemma fetch_schedule_data_catching self years :
  catching (fetch_schedule_data nfl to_json self years)
    (import_schedules (default [current_season self] years)) [].
Proof. unfold fetch_schedule_data. run_step. Qed.

Lemma fetch_injury_reports_catching self :
  catching (fetch_injury_reports nfl to_json self)
    (import_injuries [current_season self]) [].
Proof. unfold fetch_injury_reports. run_step. Qed.

Lemma fetch_team_data_catching self years :
  catching (fetch_team_data nfl to_json self years) import_team_desc [].
Proof. unfold fetch_team_data. run_step. Qed.

Lemma create_player_projections_dataset_catching self historical_years :
  catching
    (create_player_projections_dataset nfl json_dump datetime_now_isoformat
       self historical_years)
    (import_weekly_data
       (default (range_int 2018 (current_season self + 1)) historical_years)
       None)
    (VDict []).
Proof.
  unfold create_player_projections_dataset. intros w.
  unfold bind, try_except, import, dump, now, external, print, ret.
  cbn [lists env trace stdout].
  repeat
    (match goal with
     | |- context [nfl ?c ?e] => destruct (nfl c e) as [? [?|?]]
     | |- context [datetime_now_isoformat ?e] =>
         destruct (datetime_now_isoformat e) as [? ?]
     | |- context [json_dump ?v ?p ?e] =>
         destruct (json_dump v p e) as [? [[]|?]]
     end; cbn [lists env trace stdout]).
  all: do 4 eexists; split; [reflexivity|]; split;
    [cbn [trace]; rewrite <- ?app_assoc; reflexivity|].
  all: intros ev exc Hin Hraised; pick_event Hin; try discriminate Hraised.
  all: injection Hraised as <-.
  all: split; [reflexivity|]; split; [reflexivity|].
  all: eexists; (split; [cbn [stdout]; apply last_snoc|reflexivity]).
Qed.

(** The pipeline runs its eight steps whatever their upstream calls do. *)
Lemma run_full_pipeline_completes self w :
  exists w' evs,
    run_full_pipeline nfl to_json json_dump datetime_now_isoformat self w
      = (w', Returned tt) /\
    trace w' = trace w ++ evs /\
    full_pipeline_imports self `sublist_of` imports evs /\
    last (stdout w') = Some NextSteps.
Proof.
  unfold run_full_pipeline.
  rewrite (bind_returned (print StartingPipeline) _ w _ tt eq_refl).
  destruct (fetch_team_data_catching self None
              (mkWorld (lists w) (env w) (trace w)
                 (stdout w ++ [StartingPipeline])))
    as (w1 & ? & res1 & rest1 & Hrun1 & Ht1 & _).
  rewrite (bind_returned _ _ _ _ _ Hrun1).
  destruct (fetch_roster_data_catching self (Some [current_season self]) w1)
    as (w2 & ? & res2 & rest2 & Hrun2 & Ht2 & _).
  rewrite (bind_returned _ _ _ _ _ Hrun2).
  destruct (fetch_schedule_data_catching self (Some [current_season self]) w2)
    as (w3 & ? & res3 & rest3 & Hrun3 & Ht3 & _).
  rewrite (bind_returned _ _ _ _ _ Hrun3).
  destruct (fetch_injury_reports_catching self w3)
    as (w4 & ? & res4 & rest4 & Hrun4 & Ht4 & _).
  rewrite (bind_returned _ _ _ _ _ Hrun4).
  destruct (fetch_player_stats_catching self (Some [current_season self])
              "passing" w4)
    as (w5 & ? & res5 & rest5 & Hrun5 & Ht5 & _).
  rewrite (bind_returned _ _ _ _ _ Hrun5).
  destruct (fetch_player_stats_catching self (Some [current_season self])
              "rushing" w5)
    as (w6 & ? & res6 & rest6 & Hrun6 & Ht6 & _).
  rewrite (bind_returned _ _ _ _ _ Hrun6).
  destruct (fetch_player_stats_catching self (Some [current_season self])
              "receiving" w6)
    as (w7 & ? & res7 & rest7 & Hrun7 & Ht7 & _).
  rewrite (bind_returned _ _ _ _ _ Hrun7).
  destruct (create_player_projections_dataset_catching self None w7)
    as (w8 & ? & res8 & rest8 & Hrun8 & Ht8 & _).
  rewrite (bind_returned _ _ _ _ _ Hrun8).
  eexists _, _. split; [reflexivity|]. cbn [trace stdout].
  split; [|split; [|apply last_snoc]].
  - rewrite Ht8, Ht7, Ht6, Ht5, Ht4, Ht3, Ht2, Ht1. cbn [trace].
    rewrite <- !app_assoc. reflexivity.
  - unfold imports. rewrite !omap_app. cbn [omap list_omap app default].
    unfold full_pipeline_imports.
    repeat (apply sublist_skip; try apply sublist_inserts_l).
    apply sublist_nil_l.
Qed.

(** C8. An exception of the roster import ends [fetch_roster_data] with
    the exception printed and an empty frame returned; each of the six
    fetch steps catches the exceptions of its external calls in this way
    (the dataset step returns the empty dictionary); and
    [run_full_pipeline] never raises: whatever the steps meet, it makes
    the upstream call of every one of its eight steps, in order, and
    prints its closing lines. *)
Theorem C8_fetch_failure_caught_pipeline_continues self :
  (forall years w env' e,
     nfl (import_rosters (default [current_season self] years)) (env w)
       = (env', Raised e) ->
     fetch_roster_data nfl to_json self years w =
     (mkWorld (lists w) env'
        (trace w ++
           [Imported (import_rosters (default [current_season self] years))
              (Raised e)])
        (stdout w ++
           [Fetching "roster data" (default [current_season self] years);
            ErrorFetching "roster data" e]),
      Returned [])) /\
  (forall years,
     catching (fetch_roster_data nfl to_json self years)
       (import_rosters (default [current_season self] years)) []) /\
  (forall years stat_type,
     catching (fetch_player_stats nfl to_json self years stat_type)
       (import_weekly_data (default [current_season self] years)
          (weekly_columns stat_type)) []) /\
  (forall years,
     catching (fetch_schedule_data nfl to_json self years)
       (import_schedules (default [current_season self] years)) []) /\
  catching (fetch_injury_reports nfl to_json self)
    (import_injuries [current_season self]) [] /\
  (forall years,
     catching (fetch_team_data nfl to_json self years) import_team_desc []) /\
  (forall years,
     catching
       (create_player_projections_dataset nfl json_dump
          datetime_now_isoformat self years)
       (import_weekly_data
          (default (range_int 2018 (current_season self + 1)) years) None)
       (VDict [])) /\
  forall w,
    exists w' evs,
      run_full_pipeline nfl to_json json_dump datetime_now_isoformat self w
        = (w', Returned tt) /\
      trace w' = trace w ++ evs /\
      full_pipeline_imports self `sublist_of` imports evs /\
      last (stdout w') = Some NextSteps.
Proof.
  split.
  { intros years w env' e Hraise.
    unfold fetch_roster_data, bind, try_except, import, external, print, ret.
    cbn [lists env trace stdout]. rewrite Hraise.
    cbn [lists env trace stdout]. by rewrite <- app_assoc. }
  repeat split;
    auto using fetch_roster_data_catching, fetch_player_stats_catching,
      fetch_schedule_data_catching, fetch_injury_reports_catching,
      fetch_team_data_catching, create_player_projections_dataset_catching,
      run_full_pipeline_completes.
Qed.

End FetchFacts.

(** *** Worked runs *)

Example upload_250_all_accepted :
  length <$> bodies (trace (demo_upload demo_pipeline "stats" 250 []).1)
    = [100; 100; 50] /\
  (demo_upload demo_pipeline "stats" 250 []).2 = Returned true.
Proof. by vm_compute. Qed.

Example upload_250_second_rejected :
  length <$> bodies
    (trace (demo_upload demo_pipeline "stats" 250 [ok; unavailable]).1)
    = [100; 100] /\
  (demo_upload demo_pipeline "stats" 250 [ok; unavailable]).2
    = Returned false.
Proof. by vm_compute. Qed.

Example upload_250_second_raises :
  length <$> bodies
    (trace (demo_upload demo_pipeline "stats" 250 [ok; timed_out]).1)
    = [100; 100] /\
  (demo_upload demo_pipeline "stats" 250 [ok; timed_out]).2
    = Returned false /\
  stdout (demo_upload demo_pipeline "stats" 250 [ok; timed_out]).1
    = [Updating "stats" 250; UpdatedBatch 1 3;
       ErrorUpdatingSupabase (Exception "timed out")].
Proof. by vm_compute. Qed.

Example roster_import_fails :
  fetch_roster_data rosters_down written demo_pipeline None fresh_world =
  (mkWorld ∅ tt
     [Imported (import_rosters [2024%Z])
        (Raised (Exception "HTTP Error 404: Not Found"))]
     [Fetching "roster data" [2024%Z];
      ErrorFetching "roster data" (Exception "HTTP Error 404: Not Found")],
   Returned []).
Proof. reflexivity. Qed.

Example pipeline_with_rosters_down :
  let run := run_full_pipeline rosters_down written written noon
               demo_pipeline fresh_world in
  run.2 = Returned tt /\
  imports (trace run.1) =
    [import_team_desc;
     import_rosters [2024%Z];
     import_schedules [2024%Z];
     import_injuries [2024%Z];
     import_weekly_data [2024%Z] (Some passing_columns);
     import_weekly_data [2024%Z] (Some rushing_columns);
     import_weekly_data [2024%Z] (Some receiving_columns);
     import_weekly_data [2018; 2019; 2020; 2021; 2022; 2023; 2024]%Z None;
     import_seasonal_data [2018; 2019; 2020; 2021; 2022; 2023; 2024]%Z;
     import_pbp_data [2018; 2019; 2020; 2021; 2022; 2023; 2024]%Z
       (Some pbp_columns)] /\
  last (stdout run.1) = Some NextSteps.
Proof. by vm_compute. Qed.

Example pipeline_offline :
  let run := run_full_pipeline offline written written noon
               demo_pipeline fresh_world in
  run.2 = Returned tt /\
  imports (trace run.1) = full_pipeline_imports demo_pipeline /\
  omap reported (stdout run.1) =
    replicate 8 (Exception "Name or service not known").
Proof. by vm_compute. Qed.

Lemma C1_witness :
  concat (batches (seq 0 250)) = seq 0 250 /\
  (forall k b,
     batches (seq 0 250) !! k = Some b ->
     b = take 100 (drop (k * 100) (seq 0 250)) /\ length b <= 100) /\
  exists evs,
    trace (demo_upload demo_pipeline "stats" 250 []).1 = [] ++ evs /\
    bodies evs = take (length evs) (batches (seq 0 250)) /\
    ((demo_upload demo_pipeline "stats" 250 []).2 = Returned true ->
     concat (bodies evs) = seq 0 250) /\
    (truthy (supabase_url demo_pipeline) = true ->
     truthy (supabase_key demo_pipeline) = true ->
     (length evs < length (batches (seq 0 250)) ->
      exists ev, last evs = Some ev /\ succeeded ev = false) /\
     ((forall u h b e,
         succeeded (Posted u h b (scripted u h b e).2) = true) ->
      Forall (fun ev => succeeded ev = true) evs) /\
     (Forall (fun ev => succeeded ev = true) evs ->
      bodies evs = batches (seq 0 250) /\
      concat (bodies evs) = seq 0 250 /\
      (demo_upload demo_pipeline "stats" 250 []).2 = Returned true)).
Proof.
  refine (C1_batches_partition_input scripted demo_pipeline "stats" 0
          (demo_world 250 [])
          (demo_upload demo_pipeline "stats" 250 []).1
          (demo_upload demo_pipeline "stats" 250 []).2 _).
  vm_compute. reflexivity.
Defined.

Lemma C2_witness :
  (forall u h b res,
     succeeded (Posted (Dict := nat) u h b res) = true <->
     exists resp,
       res = Returned resp /\
       (status_code resp = 200 \/ status_code resp = 201)%Z) /\
  exists evs,
    trace (demo_upload demo_pipeline "stats" 250 [ok; unavailable]).1
      = [] ++ evs /\
    bodies evs = take (length evs) (batches (seq 0 250)) /\
    (forall i u h b resp,
       evs !! i = Some (Posted u h b (Returned resp)) ->
       status_code resp <> 200%Z -> status_code resp <> 201%Z ->
       length evs = S i /\
       (demo_upload demo_pipeline "stats" 250 [ok; unavailable]).2
         = Returned false) /\
    (Forall (fun ev => succeeded ev = true) evs ->
     length evs = length (batches (seq 0 250)) /\
     (demo_upload demo_pipeline "stats" 250 [ok; unavailable]).2
       = Returned true) /\
    (length (batches (seq 0 250)) = 3 ->
     forall ev,
       evs !! 1 = Some ev -> succeeded ev = false ->
       length evs = 2 /\
       (demo_upload demo_pipeline "stats" 250 [ok; unavailable]).2
         = Returned false).
Proof.
  refine (C2_abort_on_first_failed_batch scripted demo_pipeline "stats" 0
          (demo_world 250 [ok; unavailable])
          (demo_upload demo_pipeline "stats" 250 [ok; unavailable]).1
          (demo_upload demo_pipeline "stats" 250 [ok; unavailable]).2 _ _ _).
  - reflexivity.
  - reflexivity.
  - vm_compute. reflexivity.
Defined.

Lemma C3_witness :
  demo_upload (mkPipeline "data/nfl" 2024 None (Some "anon-key")) "stats"
    250 [] =
  (mkWorld {[ 0 := seq 0 250 ]} [] [] [CredentialsNotFound], Returned false).
Proof.
  apply (C3_no_credentials_no_calls scripted
           (mkPipeline "data/nfl" 2024 None (Some "anon-key")) "stats" 0
           (demo_world 250 [])).
  left. reflexivity.
Defined.

Lemma C4_witness :
  table_name "players" = "nfl_players" /\
  table_name "stats" = "player_game_stats" /\
  table_name "projections" = "player_projections" /\
  ("injuries" <> "players" -> "injuries" <> "stats" ->
   "injuries" <> "projections" -> table_name "injuries" = "injuries") /\
  exists evs,
    trace (demo_upload demo_pipeline "injuries" 150 []).1 = [] ++ evs /\
    (forall ev,
       ev ∈ evs ->
       exists h b res,
         ev = Posted
                ("https://db.example" +:+ "/rest/v1/"
                   +:+ table_name "injuries")
                h b res) /\
    ("https://db.example" <> "" ->
     truthy (supabase_key demo_pipeline) = true ->
     seq 0 150 <> [] ->
     exists h b res rest,
       evs = Posted
               ("https://db.example" +:+ "/rest/v1/"
                  +:+ table_name "injuries")
               h b res :: rest).
Proof.
  refine (C4_resource_name_in_url scripted demo_pipeline "injuries" 0
          "https://db.example" (demo_world 150 [])
          (demo_upload demo_pipeline "injuries" 150 []).1
          (demo_upload demo_pipeline "injuries" 150 []).2 _ _).
  - reflexivity.
  - vm_compute. reflexivity.
Defined.

Lemma C5_witness :
  (exists b,
     (demo_upload demo_pipeline "stats" 250 [ok; timed_out]).2 = Returned b) /\
  exists evs,
    trace (demo_upload demo_pipeline "stats" 250 [ok; timed_out]).1
      = [] ++ evs /\
    forall i u h b x,
      evs !! i = Some (Posted u h b (Raised x)) ->
      length evs = S i /\
      (demo_upload demo_pipeline "stats" 250 [ok; timed_out]).2
        = Returned false /\
      last (stdout (demo_upload demo_pipeline "stats" 250 [ok; timed_out]).1)
        = Some (ErrorUpdatingSupabase x).
Proof.
  refine (C5_exception_aborts_like_bad_status scripted demo_pipeline "stats" 0
          (demo_world 250 [ok; timed_out])
          (demo_upload demo_pipeline "stats" 250 [ok; timed_out]).1
          (demo_upload demo_pipeline "stats" 250 [ok; timed_out]).2 _).
  vm_compute. reflexivity.
Defined.

Lemma C6_witness :
  trace (demo_upload demo_pipeline "stats" 0 []).1 = [] /\
  (demo_upload demo_pipeline "stats" 0 []).2 = Returned true.
Proof.
  refine (C6_empty_input_succeeds scripted demo_pipeline "stats" 0
          (demo_world 0 [])
          (demo_upload demo_pipeline "stats" 0 []).1
          (demo_upload demo_pipeline "stats" 0 []).2 _ _ _ _).
  - reflexivity.
  - reflexivity.
  - vm_compute. reflexivity.
  - vm_compute. reflexivity.
Defined.

Lemma C7_witness :
  exists evs,
    trace (demo_upload demo_pipeline "stats" 250 []).1 = [] ++ evs /\
    (forall ev, ev ∈ evs -> exists u h b res, ev = Posted u h b res) /\
    ((forall u h b e,
        succeeded (Posted u h b (scripted u h b e).2) = true) ->
     Forall (fun ev => succeeded ev = true) evs) /\
    (Forall (fun ev => succeeded ev = true) evs ->
     length evs = 3 /\
     length <$> bodies evs = [100; 100; 50] /\
     (demo_upload demo_pipeline "stats" 250 []).2 = Returned true).
Proof.
  refine (C7_250_records_three_batches scripted demo_pipeline "stats" 0
          (demo_world 250 [])
          (demo_upload demo_pipeline "stats" 250 []).1
          (demo_upload demo_pipeline "stats" 250 []).2 _ _ _ _).
  - reflexivity.
  - reflexivity.
  - vm_compute. reflexivity.
  - vm_compute. reflexivity.
Defined.

Lemma C10_witness :
  lists (demo_upload demo_pipeline "stats" 250 [ok; unavailable]).1
    = {[ 0 := seq 0 250 ]} /\
  lists (demo_upload demo_pipeline "stats" 250 [ok; unavailable]).1 !!! 0
    = ({[ 0 := seq 0 250 ]} : gmap loc (list nat)) !!! 0 /\
  exists b,
    (demo_upload demo_pipeline "stats" 250 [ok; unavailable]).2 = Returned b.
Proof.
  refine (C10_input_list_unchanged scripted demo_pipeline "stats" 0
          (demo_world 250 [ok; unavailable])
          (demo_upload demo_pipeline "stats" 250 [ok; unavailable]).1
          (demo_upload demo_pipeline "stats" 250 [ok; unavailable]).2 _).
  vm_compute. reflexivity.
Defined.

End PipelineFacts.

(** ** Properties of scripts/simple-nfl-data-fetch.py *)

Module SimpleFacts.

Import Simple.

Section SimplePipelineFacts.

Context {Dict Env : Type}.
Variables teams sample_players : list Dict.
Variables passing_stats rushing_stats receiving_stats : list Dict.
Variables weekly_stats seasonal_stats : list Dict.
Variable json_dump : value Dict -> string -> Env -> Env * outcome unit.
Variable datetime_now_isoformat : Env -> Env * string.

Local Abbreviation steps :=
  (pipeline_steps Dict teams sample_players passing_stats rushing_stats
     receiving_stats weekly_stats seasonal_stats Env json_dump
     datetime_now_isoformat).
Local Abbreviation run :=
  (run_simple_pipeline Dict teams sample_players passing_stats rushing_stats
     receiving_stats weekly_stats seasonal_stats Env json_dump
     datetime_now_isoformat).

Implicit Types (w : World Dict Env) (self : SimpleNFLDataFetcher).

(** The driver against the statements under its [try]. *)
Lemma run_simple_pipeline_eq self w :
  run self w =
  match steps self
          (mkWorld (env w) (trace w) (stdout w ++ [StartingPipeline])) with
  | (w1, Returned a) => (w1, Returned a)
  | (w1, Raised e) =>
      (mkWorld (env w1) (trace w1) (stdout w1 ++ [PipelineFailed e]),
       Raised e)
  end.
Proof.
  unfold run_simple_pipeline, try_except, bind at 1, print at 1.
  by destruct (pipeline_steps _ _ _ _ _ _ _ _ _ _ _ _ _) as [w1 [[]|e]].
Qed.

Ltac pick_event H :=
  repeat (apply elem_of_cons in H as [-> | H]; [|]);
  try (by apply elem_of_nil in H).

Ltac find_event :=
  repeat first [apply list_elem_of_here | apply list_elem_of_further].

(** The statements under [try], on every outcome of their six writes:
    a write that raised is the last external call, and its exception is
    what the statements raise; they return if no write raised. *)
Lemma pipeline_steps_run self w :
  exists w1 r evs,
    steps self w = (w1, r) /\
    trace w1 = trace w ++ evs /\
    (forall ev e,
       ev ∈ evs -> raised ev = Some e ->
       r = Raised e /\ last evs = Some ev) /\
    ((forall ev, ev ∈ evs -> raised ev = None) ->
     r = Returned tt /\ last (stdout w1) = Some NextSteps) /\
    (forall e, r = Raised e -> exists ev, ev ∈ evs /\ raised ev = Some e).
Proof.
  unfold pipeline_steps, fetch_teams_data, create_sample_rosters,
    create_sample_stats, create_projection_dataset.
  cbn [for_in].
  unfold bind, dump, now, print, ret.
  cbn [env trace stdout].
  repeat
    (match goal with
     | |- context [datetime_now_isoformat ?e] =>
         destruct (datetime_now_isoformat e) as [? ?]
     | |- context [json_dump ?v ?p ?e] =>
         destruct (json_dump v p e) as [? [[]|?]]
     end; cbn [env trace stdout]).
  all: do 3 eexists; split; [reflexivity|]; split;
    [cbn [trace]; rewrite <- ?app_assoc; reflexivity|].
  all: cbn [app]; split; [|split].
  all: lazymatch goal with
    | |- forall ev e, ev ∈ _ -> raised ev = Some e -> _ =>
        intros ev exc Hin Hraised; pick_event Hin;
        try discriminate Hraised; injection Hraised as <-; by split
    | |- (forall ev, ev ∈ _ -> raised ev = None) -> _ =>
        intros Hnone;
        first
          [ split; [reflexivity|cbn [stdout]; apply last_snoc]
          | lazymatch type of Hnone with
            | context [Wrote ?p ?v (Raised ?x)] =>
                specialize (Hnone (Wrote p v (Raised x)) ltac:(find_event));
                discriminate Hnone
            end ]
    | |- forall e, _ = Raised e -> _ =>
        intros exc Hexc;
        first
          [ discriminate Hexc
          | injection Hexc as <-;
            lazymatch goal with
            | |- context [Wrote ?p ?v (Raised ?x)] =>
                exists (Wrote p v (Raised x)); split;
                [find_event|reflexivity]
            end ]
    end.
Qed.

(** C9. In the simplified pipeline, a write of a step that raises is the
    last external call of the run; the run then prints the failure line
    for this exception as its last line and raises the same exception.
    The run raises only in this way, and returns when no write
    raised. *)
Theorem C9_simple_pipeline_logs_and_reraises self w w' r :
  run self w = (w', r) ->
  (forall w1 e,
     steps self (mkWorld (env w) (trace w) (stdout w ++ [StartingPipeline]))
       = (w1, Raised e) ->
     w' = mkWorld (env w1) (trace w1) (stdout w1 ++ [PipelineFailed e]) /\
     r = Raised e) /\
  exists evs,
    trace w' = trace w ++ evs /\
    (forall ev e,
       ev ∈ evs -> raised ev = Some e ->
       r = Raised e /\
       last evs = Some ev /\
       last (stdout w') = Some (PipelineFailed e)) /\
    (forall e,
       r = Raised e ->
       last (stdout w') = Some (PipelineFailed e) /\
       exists ev, ev ∈ evs /\ raised ev = Some e) /\
    ((forall ev, ev ∈ evs -> raised ev = None) ->
     r = Returned tt /\ last (stdout w') = Some NextSteps).
Proof.
  rewrite run_simple_pipeline_eq.
  destruct (pipeline_steps_run self
              (mkWorld (env w) (trace w) (stdout w ++ [StartingPipeline])))
    as (w1 & r1 & evs & Hsteps & Ht & Hraised & Hnone & Hsource).
  rewrite Hsteps. cbn [trace] in Ht.
  destruct r1 as [[]|e1]; intros [= <- <-].
  - split; [done|]. exists evs. split; [done|]. split; [|split].
    + by intros ev e Hin [? _]%Hraised.
    + done.
    + done.
  - split; [by intros ? ? [= <- <-]|].
    exists evs. split; [done|]. cbn [stdout]. split; [|split].
    + intros ev e Hin [[= <-] Hlast]%Hraised; [|done].
      by rewrite last_snoc.
    + intros e [= <-]. rewrite last_snoc. split; [done|]. by apply Hsource.
    + by intros [? _]%Hnone.
Qed.

End SimplePipelineFacts.

Example simple_pipeline_with_room :
  (demo_run 6).2 = Returned tt /\
  length (trace (demo_run 6).1) = 7 /\
  last (stdout (demo_run 6).1) = Some NextSteps.
Proof. by vm_compute. Qed.

Example simple_pipeline_disk_full :
  (demo_run 3).2 = Raised (Exception "No space left on device") /\
  last (trace (demo_run 3).1) =
    Some (Wrote "data/nfl/rushing_stats_2024.json" (VRecords [5])
            (Raised (Exception "No space left on device"))) /\
  stdout (demo_run 3).1 =
    [StartingPipeline;
     FetchingTeams; SavedTeams 1 "data/nfl/teams.json";
     CreatingRosters; CreatedRoster 2 "data/nfl/rosters_2024.json";
     CreatingStats; SavedStats 1 "data/nfl/passing_stats_2024.json";
     PipelineFailed (Exception "No space left on device")].
Proof. by vm_compute. Qed.

Lemma C9_witness :
  (forall w1 e,
     pipeline_steps nat [1] [2; 3] [4] [5] [6; 7] [8; 9; 10] [11; 12] nat
       (disk 3) noon demo_fetcher (mkWorld 0 [] ([] ++ [StartingPipeline]))
       = (w1, Raised e) ->
     (demo_run 3).1
       = mkWorld (env w1) (trace w1) (stdout w1 ++ [PipelineFailed e]) /\
     (demo_run 3).2 = Raised e) /\
  exists evs,
    trace (demo_run 3).1 = [] ++ evs /\
    (forall ev e,
       ev ∈ evs -> raised ev = Some e ->
       (demo_run 3).2 = Raised e /\
       last evs = Some ev /\
       last (stdout (demo_run 3).1) = Some (PipelineFailed e)) /\
    (forall e,
       (demo_run 3).2 = Raised e ->
       last (stdout (demo_run 3).1) = Some (PipelineFailed e) /\
       exists ev, ev ∈ evs /\ raised ev = Some e) /\
    ((forall ev, ev ∈ evs -> raised ev = None) ->
     (demo_run 3).2 = Returned tt /\
     last (stdout (demo_run 3).1) = Some NextSteps).
Proof.
  refine (C9_simple_pipeline_logs_and_reraises [1] [2; 3] [4] [5] [6; 7]
            [8; 9; 10] [11; 12] (disk 3) noon demo_fetcher (mkWorld 0 [] [])
            (demo_run 3).1 (demo_run 3).2 _).
  vm_compute. reflexivity.
Defined.

End SimpleFacts.

(** ** More properties of the uploader *)

Module UploaderMore.

Import Pipeline Measures.

(** *** The batches *)

Section BatchFacts.

Context {Dict : Type}.
Implicit Types (l c : list Dict).

(** The sizes of the slices the loop takes. *)
Lemma batch_sizes l k b :
  batches l !! k = Some b ->
  length (batches l) = (length l + 99) / 100 /\
  0 < length b /\
  (S k < length (batches l) -> length b = 100) /\
  (S k = length (batches l) -> length b = length l - 100 * k).
Proof.
  intros Hk.
  pose proof (PipelineFacts.batches_count l) as Hcount.
  unfold batch_size in Hcount.
  replace (length l + 100 - 1) with (length l + 99) in Hcount by lia.
  pose proof (lookup_lt_Some _ _ _ Hk) as Hlt.
  apply PipelineFacts.batches_lookup in Hk as (-> & Hlen & Hin).
  unfold batch_size in *.
  rewrite length_take, length_drop in *.
  pose proof (Nat.div_mod_eq (length l + 99) 100).
  pose proof (Nat.mod_upper_bound (length l + 99) 100 ltac:(lia)).
  repeat split; lia.
Qed.

(** One full batch in front. *)
Lemma batches_full_batch c l :
  length c = 100 -> batches (c ++ l) = c :: batches l.
Proof.
  intros Hc. rewrite !PipelineFacts.batches_eq, length_app, Hc.
  unfold batch_size.
  replace ((100 + length l + 100 - 1) / 100)
    with (S ((length l + 100 - 1) / 100)).
  2:{ replace (100 + length l + 100 - 1) with (1 * 100 + (length l + 100 - 1))
        by lia.
      by rewrite Nat.div_add_l by lia. }
  cbn [seq fmap list_fmap]. f_equal.
  - rewrite Nat.mul_0_l, drop_0, take_app_length'; done.
  - rewrite <- fmap_S_seq, <- list_fmap_compose.
    apply list_fmap_ext. intros _ k _. unfold compose.
    f_equal. rewrite Nat.mul_succ_l, (Nat.add_comm (k * 100)).
    apply drop_app_add'. lia.
Qed.

Lemma batches_app l1 l2 m :
  length l1 = 100 * m ->
  batches (l1 ++ l2) = batches l1 ++ batches l2.
Proof.
  revert l1. induction m as [|m IH]; intros l1 Hlen.
  - rewrite Nat.mul_0_r in Hlen. by apply nil_length_inv in Hlen as ->.
  - assert (length (take 100 l1) = 100) as Hc by (rewrite length_take; lia).
    assert (length (drop 100 l1) = 100 * m) as Hd
      by (rewrite length_drop; lia).
    rewrite <- (take_drop 100 l1), <- app_assoc.
    rewrite batches_full_batch, IH by done.
    by rewrite (batches_full_batch (take 100 l1)) by done.
Qed.

End BatchFacts.

(** *** What an upload prints and leaves outside *)

Section TranscriptFacts.

Context {Dict Env : Type}.
Variable requests_post :
  string -> gmap string string -> list Dict -> Env -> Env * outcome response.

Implicit Types (w : World Dict Env) (l : list Dict) (evs : list (event Dict)).

Lemma send_batch_step url headers data k w e' res :
  requests_post url headers
    (slice (lists w !!! data) (k * batch_size) (k * batch_size + batch_size))
    (env w) = (e', res) ->
  send_batch requests_post url headers data (k * batch_size) w =
  (mkWorld (lists w) e'
     (trace w ++
        [Posted url headers
           (slice (lists w !!! data) (k * batch_size)
              (k * batch_size + batch_size)) res])
     (stdout w ++
        match res with
        | Returned resp =>
            if bool_decide (status_code resp ∈ [200; 201]%Z)
            then [UpdatedBatch (S k)
                    ((length (lists w !!! data) + batch_size - 1)
                       / batch_size)]
            else [ErrorUpdatingBatch (S k) (text resp)]
        | Raised _ => []
        end),
   match res with
   | Returned resp =>
       if bool_decide (status_code resp ∈ [200; 201]%Z)
       then Returned Continue else Returned (Return false)
   | Raised x => Raised x
   end).
Proof.
  intros Hpost.
  unfold send_batch, getslice, post, external, len, deref, print, bind, ret.
  rewrite Hpost.
  replace (k * batch_size / batch_size + 1) with (S k)
    by (rewrite Nat.div_mul by done; lia).
  destruct res as [resp|x].
  - destruct (decide (status_code resp ∈ [200; 201]%Z)) as [Hin|Hout].
    + rewrite bool_decide_eq_false_2 by (intros Hn; by apply Hn).
      by rewrite bool_decide_eq_true_2 by done.
    + rewrite (bool_decide_eq_true_2 (_ ∉ _)) by done.
      by rewrite bool_decide_eq_false_2 by done.
  - by rewrite app_nil_r.
Qed.

Lemma send_loop_transcript url headers data k m w w' r :
  for_in ((fun j => j * batch_size) <$> seq k m)
    (send_batch requests_post url headers data) w = (w', r) ->
  env w' =
    settle requests_post url headers
      ((fun i => slice (lists w !!! data) i (i + batch_size))
         <$> ((fun j => j * batch_size) <$> seq k m))
      (env w) /\
  stdout w' =
    stdout w ++
    progress ((length (lists w !!! data) + batch_size - 1) / batch_size) k
      (exchange requests_post url headers
         ((fun i => slice (lists w !!! data) i (i + batch_size))
            <$> ((fun j => j * batch_size) <$> seq k m))
         (env w)).
Proof.
  revert k w. induction m as [|m IH]; intros k w.
  - intros [= <- <-]. simpl. by rewrite app_nil_r.
  - cbn [seq]. rewrite !fmap_cons, PipelineFacts.for_in_cons.
    cbn [exchange settle progress].
    destruct (requests_post url headers _ (env w)) as [e' res] eqn:Hpost.
    rewrite (send_batch_step _ _ _ _ _ _ _ Hpost).
    cbn [succeeded progress].
    destruct res as [resp|x].
    + case_bool_decide.
      * intros (He & Ho)%IH. cbn [lists env stdout] in He, Ho.
        rewrite He, Ho, <- app_assoc. done.
      * by intros [= <- <-].
    + intros [= <- <-]. by rewrite app_nil_r.
Qed.

Lemma upload_transcript self data_type data w w' r :
  truthy (supabase_url self) = true ->
  truthy (supabase_key self) = true ->
  update_supabase_database requests_post self data_type data w = (w', r) ->
  env w' =
    settle requests_post (make_url self data_type) (make_headers self)
      (batches (lists w !!! data)) (env w) /\
  stdout w' =
    stdout w ++
    Updating data_type (length (lists w !!! data)) ::
    progress (length (batches (lists w !!! data))) 0
      (exchange requests_post (make_url self data_type) (make_headers self)
         (batches (lists w !!! data)) (env w)) ++
    closing data_type (length (lists w !!! data))
      (loop_result
         (exchange requests_post (make_url self data_type)
            (make_headers self) (batches (lists w !!! data)) (env w))).
Proof.
  intros Hurl Hkey. unfold update_supabase_database.
  rewrite Hurl, Hkey. cbn [negb orb].
  unfold try_except, len, deref, print, bind at 1 2 3 4 5 6, ret.
  cbn [lists env trace stdout].
  rewrite PipelineFacts.range_from_0.
  destruct (for_in _ _ _) as [w1 f] eqn:Hloop.
  pose proof (PipelineFacts.send_loop _ _ _ _ _ _ _ _ Hloop) as (Hl & _ & Hf).
  apply send_loop_transcript in Hloop as (He & Ho).
  cbn [lists env trace stdout] in *.
  rewrite PipelineFacts.batches_count.
  unfold batches. rewrite PipelineFacts.range_from_0.
  set (evs := exchange _ _ _ _ _) in *.
  rewrite <- Hf.
  destruct f as [[|b]|x].
  - unfold bind. intros [= <- <-]. cbn [env stdout closing].
    rewrite Hl, He, Ho, <- !app_assoc. done.
  - intros [= <- <-]. cbn [closing].
    rewrite He, Ho, <- !app_assoc, app_nil_r. done.
  - unfold bind. intros [= <- <-]. cbn [env stdout closing].
    rewrite He, Ho, <- !app_assoc. done.
Qed.

End TranscriptFacts.

(** *** The requests and the lines of an upload *)

Section UploadFacts.

Context {Dict Env : Type}.
Variable requests_post :
  string -> gmap string string -> list Dict -> Env -> Env * outcome response.

Implicit Types (w : World Dict Env) (l : list Dict) (evs : list (event Dict)).

Lemma truthy_Some o : truthy o = true -> exists s, o = Some s /\ s <> "".
Proof. destruct o as [[|a s]|]; [done| |done]. intros _. by eexists. Qed.

Lemma progress_accepted total k evs :
  forallb succeeded evs = true ->
  progress total k evs
  = (fun j => UpdatedBatch j total) <$> seq (S k) (length evs).
Proof.
  revert k. induction evs as [|ev evs IH]; intros k; [done|].
  cbn [forallb]. intros [Hev Hall]%andb_true_iff.
  destruct ev as [u h b [resp|x]| | |]; try done.
  cbn [succeeded] in Hev. cbn [progress]. rewrite Hev.
  cbn [length seq fmap list_fmap]. f_equal. by apply IH.
Qed.

Lemma progress_failed total url headers bs e k i ev :
  exchange requests_post url headers bs e !! i = Some ev ->
  succeeded ev = false ->
  progress total k (exchange requests_post url headers bs e)
  = ((fun j => UpdatedBatch j total) <$> seq (S k) i) ++
    match ev with
    | Posted _ _ _ (Returned resp) =>
        [ErrorUpdatingBatch (S (k + i)) (text resp)]
    | _ => []
    end /\
  loop_result (exchange requests_post url headers bs e)
  = match ev with
    | Posted _ _ _ (Raised x) => Raised x
    | _ => Returned (Return false)
    end.
Proof.
  revert e k i. induction bs as [|b bs IH]; intros e k i; [done|].
  cbn [exchange].
  destruct (requests_post url headers b e) as [e' res].
  destruct i as [|i].
  - intros [= <-] Hfail. rewrite Hfail. cbn [progress loop_result].
    rewrite Hfail. rewrite Nat.add_0_r.
    destruct res as [resp|x]; [|done].
    cbn [succeeded] in Hfail. by rewrite Hfail.
  - destruct (succeeded (Posted url headers b res)) eqn:Hok; [|done].
    cbn [lookup list_lookup]. intros Hi Hfail.
    destruct (IH e' (S k) i Hi Hfail) as [Hp Hr].
    cbn [loop_result]. rewrite Hok. split; [|done].
    destruct res as [resp|x]; [|done]. cbn [succeeded] in Hok.
    cbn [progress]. rewrite Hok, Hp.
    cbn [seq fmap list_fmap app]. do 2 f_equal.
    by replace (S k + i) with (k + S i) by lia.
Qed.

Lemma upload_requests self data_type data w w' r evs :
  update_supabase_database requests_post self data_type data w = (w', r) ->
  trace w' = trace w ++ evs ->
  evs = [] /\ r = Returned false /\
    stdout w' = stdout w ++ [CredentialsNotFound] /\ env w' = env w \/
  truthy (supabase_url self) = true /\ truthy (supabase_key self) = true /\
    evs = exchange requests_post (make_url self data_type)
            (make_headers self) (batches (lists w !!! data)) (env w).
Proof.
  intros Hrun Ht.
  destruct (truthy (supabase_url self)) eqn:Hurl;
    [destruct (truthy (supabase_key self)) eqn:Hkey|].
  - right. apply PipelineFacts.upload_run in Hrun as (_ & Ht' & _); [|done..].
    rewrite Ht' in Ht. by apply app_inv_head in Ht as <-.
  - left. rewrite PipelineFacts.upload_skipped in Hrun by auto.
    injection Hrun as <- <-. cbn [trace] in Ht.
    rewrite <- (app_nil_r (trace w)) in Ht at 1.
    by apply app_inv_head in Ht as <-.
  - left. rewrite PipelineFacts.upload_skipped in Hrun by auto.
    injection Hrun as <- <-. cbn [trace] in Ht.
    rewrite <- (app_nil_r (trace w)) in Ht at 1.
    by apply app_inv_head in Ht as <-.
Qed.

Lemma upload_with_credentials self data_type data w w' :
  update_supabase_database requests_post self data_type data w
    = (w', Returned true) ->
  truthy (supabase_url self) = true /\ truthy (supabase_key self) = true.
Proof.
  intros Hrun.
  destruct (truthy (supabase_url self)) eqn:Hurl;
    [destruct (truthy (supabase_key self)) eqn:Hkey|]; [done|..];
    by rewrite PipelineFacts.upload_skipped in Hrun by auto.
Qed.

Lemma exchange_length url headers (bs : list (list Dict)) (e : Env) :
  length (exchange requests_post url headers bs e) <= length bs.
Proof.
  revert e. induction bs as [|b bs IH]; intros e; cbn [exchange length];
    [done|].
  destruct (requests_post url headers b e) as [e' res].
  destruct (succeeded (Posted url headers b res)); cbn [length].
  - specialize (IH e'). lia.
  - lia.
Qed.

(** X1. The requests of an upload by size: an upload of [n] records
    makes at most [(n + 99) / 100] requests (the division rounds down),
    and exactly that many if it has credentials and every request it
    made succeeded.  The body of its request number [k + 1] is never
    empty: it has exactly 100 records if the input has [100 (k + 1)]
    records or more, and otherwise the [n - 100 k] records that
    remain. *)
Theorem X1_request_sizes self data_type data w w' r evs :
  update_supabase_database requests_post self data_type data w = (w', r) ->
  trace w' = trace w ++ evs ->
  length evs <= (length (lists w !!! data) + 99) / 100 /\
  (forall k u h b res,
     evs !! k = Some (Posted u h b res) ->
     0 < length b /\
     (100 * S k <= length (lists w !!! data) -> length b = 100) /\
     (length (lists w !!! data) < 100 * S k ->
      length b = length (lists w !!! data) - 100 * k)) /\
  (truthy (supabase_url self) = true ->
   truthy (supabase_key self) = true ->
   Forall (fun ev => succeeded ev = true) evs ->
   length evs = (length (lists w !!! data) + 99) / 100).
Proof.
  intros Hrun Ht.
  pose proof (PipelineFacts.batches_count (lists w !!! data)) as Hcount.
  unfold batch_size in Hcount.
  replace (length (lists w !!! data) + 100 - 1)
    with (length (lists w !!! data) + 99) in Hcount by lia.
  destruct (truthy (supabase_url self)) eqn:Hurl;
    [destruct (truthy (supabase_key self)) eqn:Hkey|].
  2,3: rewrite PipelineFacts.upload_skipped in Hrun by auto;
    injection Hrun as <- <-; cbn [trace] in Ht;
    rewrite <- (app_nil_r (trace w)) in Ht at 1;
    apply app_inv_head in Ht as <-;
    (split; [cbn [length]; lia|]); by split.
  apply PipelineFacts.upload_run in Hrun as (_ & Ht' & _); [|done..].
  rewrite Ht' in Ht. apply app_inv_head in Ht as <-.
  split; [|split].
  - rewrite <- Hcount. apply exchange_length.
  - intros k u h b res Hk%PipelineFacts.exchange_lookup.
    destruct (batch_sizes _ _ _ Hk) as (_ & Hpos & Hfull & Hlast).
    split; [done|].
    pose proof (lookup_lt_Some _ _ _ Hk) as Hlt.
    pose proof (Nat.div_mod_eq (length (lists w !!! data) + 99) 100).
    pose proof (Nat.mod_upper_bound (length (lists w !!! data) + 99) 100
                  ltac:(lia)).
    split; intros Hn.
    + destruct (decide (S k < length (batches (lists w !!! data))))
        as [Hs|Hs]; [by apply Hfull|].
      rewrite Hlast by lia. lia.
    + apply Hlast. lia.
  - intros _ _ Hall%PipelineFacts.forallb_Forall.
    rewrite (PipelineFacts.exchange_complete _ _ _ _ _ Hall). done.
Qed.

(** X3. Every external call of an upload is a write request that
    carries the same four headers: the access key as [apikey], the key
    after [Bearer ] as [Authorization], the JSON content type and
    [return=minimal]; a request is made only with a key that is present
    and not empty. *)
Theorem X3_requests_carry_the_key self data_type data w w' r evs ev :
  update_supabase_database requests_post self data_type data w = (w', r) ->
  trace w' = trace w ++ evs ->
  ev ∈ evs ->
  exists key url b res,
    supabase_key self = Some key /\ key <> "" /\
    ev = Posted url
           {[ "apikey" := key;
              "Authorization" := "Bearer " +:+ key;
              "Content-Type" := "application/json";
              "Prefer" := "return=minimal" ]}
           b res.
Proof.
  intros Hrun Ht Hin.
  destruct (upload_requests _ _ _ _ _ _ _ Hrun Ht)
    as [[-> _] | (_ & Hkey & ->)]; [by apply elem_of_nil in Hin|].
  apply truthy_Some in Hkey as (key & Hkey & Hne).
  apply PipelineFacts.exchange_posted in Hin as (b & res & ->).
  exists key, (make_url self data_type), b, res.
  unfold make_headers. by rewrite Hkey.
Qed.

(** X4. An upload that returns true has printed, in this order, the
    line that announces the data type and the number of records, one
    line [Updated batch k/total] for each batch, [k] running from 1 to
    the number of batches, and the closing line with the number of
    records and the data type. *)
Theorem X4_success_transcript self data_type data w w' :
  update_supabase_database requests_post self data_type data w
    = (w', Returned true) ->
  stdout w' =
    stdout w ++
    Updating data_type (length (lists w !!! data)) ::
    ((fun k => UpdatedBatch k (length (batches (lists w !!! data))))
       <$> seq 1 (length (batches (lists w !!! data)))) ++
    [SuccessfullyUpdated (length (lists w !!! data)) data_type].
Proof.
  intros Hrun.
  destruct (upload_with_credentials _ _ _ _ _ Hrun) as [Hurl Hkey].
  destruct (PipelineFacts.upload_run _ _ _ _ _ _ _ Hurl Hkey Hrun)
    as (_ & _ & [= Hall] & _).
  destruct (upload_transcript _ _ _ _ _ _ _ Hurl Hkey Hrun) as [_ ->].
  symmetry in Hall.
  rewrite (progress_accepted _ _ _ Hall).
  rewrite (PipelineFacts.exchange_complete _ _ _ _ _ Hall).
  apply PipelineFacts.loop_result_continue in Hall as ->. done.
Qed.

(** X5. If the request number [i + 1] of an upload did not succeed, the
    upload has printed the announcing line, the line
    [Updated batch k/total] for the [i] requests before it, and one
    last line: the batch number [i + 1] with the text of the answer if
    the request was answered, the exception if it raised.  The closing
    line is not printed. *)
Theorem X5_failure_transcript self data_type data w w' r evs i u h b res :
  update_supabase_database requests_post self data_type data w = (w', r) ->
  trace w' = trace w ++ evs ->
  evs !! i = Some (Posted u h b res) ->
  succeeded (Posted (Dict := Dict) u h b res) = false ->
  stdout w' =
    stdout w ++
    Updating data_type (length (lists w !!! data)) ::
    ((fun k => UpdatedBatch k (length (batches (lists w !!! data))))
       <$> seq 1 i) ++
    [match res with
     | Returned resp => ErrorUpdatingBatch (S i) (text resp)
     | Raised x => ErrorUpdatingSupabase x
     end].
Proof.
  intros Hrun Ht Hi Hfail.
  destruct (upload_requests _ _ _ _ _ _ _ Hrun Ht)
    as [[-> _] | (Hurl & Hkey & ->)]; [done|].
  destruct (upload_transcript _ _ _ _ _ _ _ Hurl Hkey Hrun) as [_ ->].
  destruct (progress_failed (length (batches (lists w !!! data)))
              _ _ _ _ 0 _ _ Hi Hfail) as [-> ->].
  rewrite <- app_assoc. by destruct res.
Qed.

Lemma exchange_app url headers bs1 bs2 e :
  exchange requests_post url headers (bs1 ++ bs2) e =
  exchange requests_post url headers bs1 e ++
  (if forallb succeeded (exchange requests_post url headers bs1 e)
   then exchange requests_post url headers bs2
          (settle requests_post url headers bs1 e)
   else []).
Proof.
  revert e. induction bs1 as [|b bs1 IH]; intros e; [done|].
  cbn [app exchange settle forallb].
  destruct (requests_post url headers b e) as [e' res].
  cbn [forallb].
  destruct (succeeded (Posted url headers b res)); [|done].
  cbn [andb app]. by rewrite IH.
Qed.

Lemma settle_app url headers bs1 bs2 e :
  settle requests_post url headers (bs1 ++ bs2) e =
  if forallb succeeded (exchange requests_post url headers bs1 e)
  then settle requests_post url headers bs2
         (settle requests_post url headers bs1 e)
  else settle requests_post url headers bs1 e.
Proof.
  revert e. induction bs1 as [|b bs1 IH]; intros e; [done|].
  cbn [app exchange settle forallb].
  destruct (requests_post url headers b e) as [e' res].
  cbn [forallb].
  destruct (succeeded (Posted url headers b res)); [|done].
  cbn [andb]. by rewrite IH.
Qed.

(** X6. Uploading in two parts: let the first of two lists have a
    multiple of 100 records.  If the upload of the first list returns
    true, the upload of the second list after it makes, together with
    the first, the requests of one upload of the concatenation, leaves
    the outside in the same state and returns the same result.  If the
    upload of the first list does not return true, the upload of the
    concatenation makes the requests of the first upload and returns
    its result. *)
Theorem X6_upload_in_two_parts self data_type part1 part2 data m
    w w1 r1 w2 r2 w' r :
  length (lists w !!! part1) = 100 * m ->
  lists w !!! data = lists w !!! part1 ++ lists w !!! part2 ->
  update_supabase_database requests_post self data_type part1 w = (w1, r1) ->
  update_supabase_database requests_post self data_type part2 w1 = (w2, r2) ->
  update_supabase_database requests_post self data_type data w = (w', r) ->
  (r1 = Returned true ->
   trace w' = trace w2 /\ env w' = env w2 /\ r = r2) /\
  (r1 <> Returned true ->
   trace w' = trace w1 /\ env w' = env w1 /\ r = r1).
Proof.
  intros Hlen Hdata Hrun1 Hrun2 Hrun.
  destruct (truthy (supabase_url self) && truthy (supabase_key self))
    eqn:Hcreds.
  - apply andb_true_iff in Hcreds as [Hurl Hkey].
    destruct (PipelineFacts.upload_run _ _ _ _ _ _ _ Hurl Hkey Hrun1)
      as (Hl1 & Ht1 & Hr1 & _).
    destruct (PipelineFacts.upload_run _ _ _ _ _ _ _ Hurl Hkey Hrun2)
      as (_ & Ht2 & Hr2 & _).
    destruct (PipelineFacts.upload_run _ _ _ _ _ _ _ Hurl Hkey Hrun)
      as (_ & Ht & Hr & _).
    destruct (upload_transcript _ _ _ _ _ _ _ Hurl Hkey Hrun1) as [He1 _].
    destruct (upload_transcript _ _ _ _ _ _ _ Hurl Hkey Hrun2) as [He2 _].
    destruct (upload_transcript _ _ _ _ _ _ _ Hurl Hkey Hrun) as [He _].
    rewrite Hdata, (batches_app _ _ _ Hlen) in Ht, Hr, He.
    rewrite exchange_app in Ht, Hr. rewrite settle_app in He.
    rewrite Hl1, Ht1, He1 in *.
    destruct (forallb succeeded
                (exchange requests_post (make_url self data_type)
                   (make_headers self) (batches (lists w !!! part1))
                   (env w))) eqn:Hall.
    + split; [|by rewrite Hr1].
      intros _. rewrite Ht, Ht2, He, He2, Hr, Hr2, <- app_assoc.
      rewrite forallb_app, Hall. done.
    + split; [by rewrite Hr1|]. intros _.
      rewrite app_nil_r in Ht, Hr. by rewrite Ht, He, Hr, Hr1, Hall.
  - assert (truthy (supabase_url self) = false \/
            truthy (supabase_key self) = false) as Hnone
      by (by apply andb_false_iff).
    rewrite PipelineFacts.upload_skipped in Hrun1, Hrun2, Hrun by done.
    injection Hrun1 as <- <-. injection Hrun2 as <- <-.
    injection Hrun as <- <-. by split.
Qed.

End UploadFacts.

(** *** Worked runs *)

Lemma X1_witness :
  length (trace (demo_upload demo_pipeline "stats" 250 []).1)
    <= (length (seq 0 250) + 99) / 100 /\
  (forall k u h b res,
     trace (demo_upload demo_pipeline "stats" 250 []).1 !! k
       = Some (Posted u h b res) ->
     0 < length b /\
     (100 * S k <= length (seq 0 250) -> length b = 100) /\
     (length (seq 0 250) < 100 * S k ->
      length b = length (seq 0 250) - 100 * k)) /\
  (truthy (supabase_url demo_pipeline) = true ->
   truthy (supabase_key demo_pipeline) = true ->
   Forall (fun ev => succeeded ev = true)
     (trace (demo_upload demo_pipeline "stats" 250 []).1) ->
   length (trace (demo_upload demo_pipeline "stats" 250 []).1)
     = (length (seq 0 250) + 99) / 100).
Proof.
  refine (X1_request_sizes scripted demo_pipeline "stats" 0
          (demo_world 250 [])
          (demo_upload demo_pipeline "stats" 250 []).1
          (demo_upload demo_pipeline "stats" 250 []).2
          (trace (demo_upload demo_pipeline "stats" 250 []).1) _ _).
  - vm_compute. reflexivity.
  - reflexivity.
Defined.

Lemma X3_witness :
  exists key url b res,
    supabase_key demo_pipeline = Some key /\ key <> "" /\
    Posted "https://db.example/rest/v1/player_game_stats"
      (make_headers demo_pipeline) (seq 0 100)
      (Returned (mkResponse 200 ""))
    = Posted url
        {[ "apikey" := key;
           "Authorization" := "Bearer " +:+ key;
           "Content-Type" := "application/json";
           "Prefer" := "return=minimal" ]}
        b res.
Proof.
  refine (X3_requests_carry_the_key scripted demo_pipeline "stats" 0
          (demo_world 250 [])
          (demo_upload demo_pipeline "stats" 250 []).1
          (demo_upload demo_pipeline "stats" 250 []).2
          (trace (demo_upload demo_pipeline "stats" 250 []).1)
          _ _ _ _).
  - vm_compute. reflexivity.
  - reflexivity.
  - vm_compute. apply list_elem_of_here.
Defined.

Lemma X4_witness :
  stdout (demo_upload demo_pipeline "stats" 250 []).1 =
    [] ++
    Updating "stats" 250 ::
    ((fun k => UpdatedBatch k 3) <$> seq 1 3) ++
    [SuccessfullyUpdated 250 "stats"].
Proof.
  refine (X4_success_transcript scripted demo_pipeline "stats" 0
          (demo_world 250 [])
          (demo_upload demo_pipeline "stats" 250 []).1 _).
  vm_compute. reflexivity.
Defined.

Lemma X5_witness :
  stdout (demo_upload demo_pipeline "stats" 250 [ok; unavailable]).1 =
    [] ++
    Updating "stats" 250 ::
    ((fun k => UpdatedBatch k 3) <$> seq 1 1) ++
    [ErrorUpdatingBatch 2 "Service Unavailable"].
Proof.
  refine (X5_failure_transcript scripted demo_pipeline "stats" 0
          (demo_world 250 [ok; unavailable])
          (demo_upload demo_pipeline "stats" 250 [ok; unavailable]).1
          (demo_upload demo_pipeline "stats" 250 [ok; unavailable]).2
          (trace (demo_upload demo_pipeline "stats" 250 [ok; unavailable]).1)
          1 (make_url demo_pipeline "stats") (make_headers demo_pipeline)
          (seq 100 100) unavailable _ _ _ _).
  - vm_compute. reflexivity.
  - reflexivity.
  - vm_compute. reflexivity.
  - reflexivity.
Defined.

Lemma X6_witness :
  ((demo_first []).2 = Returned true ->
   trace (demo_whole []).1 = trace (demo_second []).1 /\
   env (demo_whole []).1 = env (demo_second []).1 /\
   (demo_whole []).2 = (demo_second []).2) /\
  ((demo_first []).2 <> Returned true ->
   trace (demo_whole []).1 = trace (demo_first []).1 /\
   env (demo_whole []).1 = env (demo_first []).1 /\
   (demo_whole []).2 = (demo_first []).2).
Proof.
  refine (X6_upload_in_two_parts scripted demo_pipeline "stats" 0 1 2 1
          (demo_parts [])
          (demo_first []).1 (demo_first []).2
          (demo_second []).1 (demo_second []).2
          (demo_whole []).1 (demo_whole []).2 _ _ _ _ _).
  - vm_compute. reflexivity.
  - vm_compute. reflexivity.
  - vm_compute. reflexivity.
  - vm_compute. reflexivity.
  - vm_compute. reflexivity.
Defined.

End UploaderMore.

(** ** More properties of the fetch steps and the full pipeline *)

Module FetchMore.

Import Pipeline Measures.

Section FetchFacts.

Context {Dict Env : Type}.
Variable nfl : import_call -> Env -> Env * outcome (DataFrame Dict).
Variable to_json : DataFrame Dict -> string -> Env -> Env * outcome unit.
Variable json_dump : value Dict -> string -> Env -> Env * outcome unit.
Variable datetime_now_isoformat : Env -> Env * string.

Implicit Types (w : World Dict Env) (self : NFLDataPipeline).

(** Run a step on every outcome of its external calls. *)
Ltac run_calls :=
  unfold bind, try_except, import, df_to_json, dump, now, external, print,
    ret;
  cbn [lists env trace stdout];
  repeat
    (match goal with
     | |- context [nfl ?c ?e] => destruct (nfl c e) as [? [?|?]]
     | |- context [to_json ?d ?p ?e] => destruct (to_json d p e) as [? [[]|?]]
     | |- context [datetime_now_isoformat ?e] =>
         destruct (datetime_now_isoformat e) as [? ?]
     | |- context [json_dump ?v ?p ?e] =>
         destruct (json_dump v p e) as [? [[]|?]]
     end; cbn [lists env trace stdout]).

Ltac fetch_courses :=
  intros w; run_calls;
  (do 3 eexists; split; [reflexivity|]; split; [reflexivity|]; split;
   [cbn [trace]; rewrite <- ?app_assoc; reflexivity|]);
  cbn [app];
  [ right; right; reflexivity
  | right; left; by eauto
  | left; by eauto ].

Lemma fetch_roster_data_fetching self years :
  fetching (fetch_roster_data nfl to_json self years)
    (import_rosters (default [current_season self] years))
    (output_dir self +:+ "/rosters_"
       +:+ dashed (default [current_season self] years) +:+ ".json").
Proof. unfold fetch_roster_data. fetch_courses. Qed.

Lemma fetch_player_stats_fetching self years stat_type :
  fetching (fetch_player_stats nfl to_json self years stat_type)
    (import_weekly_data (default [current_season self] years)
       (weekly_columns stat_type))
    (output_dir self +:+ "/" +:+ stat_type +:+ "_stats_"
       +:+ dashed (default [current_season self] years) +:+ ".json").
Proof. unfold fetch_player_stats. fetch_courses. Qed.

Lemma fetch_schedule_data_fetching self years :
  fetching (fetch_schedule_data nfl to_json self years)
    (import_schedules (default [current_season self] years))
    (output_dir self +:+ "/schedule_"
       +:+ dashed (default [current_season self] years) +:+ ".json").
Proof. unfold fetch_schedule_data. fetch_courses. Qed.

Lemma fetch_injury_reports_fetching self :
  fetching (fetch_injury_reports nfl to_json self)
    (import_injuries [current_season self])
    (output_dir self +:+ "/injuries_"
       +:+ pretty (current_season self) +:+ ".json").
Proof. unfold fetch_injury_reports. fetch_courses. Qed.

Lemma fetch_team_data_fetching self years :
  fetching (fetch_team_data nfl to_json self years) import_team_desc
    (output_dir self +:+ "/teams.json").
Proof. unfold fetch_team_data. fetch_courses. Qed.

(** X7. Each of the five fetch steps returns, after its upstream call
    and at most one write, to the file named after the step in the
    output directory (the years joined by dashes, the stat type in
    front for the player stats).  What is handed to the write are the
    records of the frame the upstream call returned, and the step
    returns that frame if the write returned: a frame that is not
    empty is returned only after a write of its records to that file
    returned.  If the upstream call raised, no write is attempted and
    the empty frame is returned; if the write raised, the frame that
    was fetched is dropped and the empty frame is returned.
    [fetch_team_data] makes the same call and writes the same file
    whatever years it is given. *)
Theorem X7_fetch_steps_return_what_they_saved self :
  (forall years,
     fetching (fetch_roster_data nfl to_json self years)
       (import_rosters (default [current_season self] years))
       (output_dir self +:+ "/rosters_"
          +:+ dashed (default [current_season self] years) +:+ ".json")) /\
  (forall years stat_type,
     fetching (fetch_player_stats nfl to_json self years stat_type)
       (import_weekly_data (default [current_season self] years)
          (weekly_columns stat_type))
       (output_dir self +:+ "/" +:+ stat_type +:+ "_stats_"
          +:+ dashed (default [current_season self] years) +:+ ".json")) /\
  (forall years,
     fetching (fetch_schedule_data nfl to_json self years)
       (import_schedules (default [current_season self] years))
       (output_dir self +:+ "/schedule_"
          +:+ dashed (default [current_season self] years) +:+ ".json")) /\
  fetching (fetch_injury_reports nfl to_json self)
    (import_injuries [current_season self])
    (output_dir self +:+ "/injuries_"
       +:+ pretty (current_season self) +:+ ".json") /\
  (forall years,
     fetching (fetch_team_data nfl to_json self years) import_team_desc
       (output_dir self +:+ "/teams.json")).
Proof.
  repeat split;
    auto using fetch_roster_data_fetching, fetch_player_stats_fetching,
      fetch_schedule_data_fetching, fetch_injury_reports_fetching,
      fetch_team_data_fetching.
Qed.

Lemma weekly_columns_other stat_type :
  stat_type <> "passing" -> stat_type <> "rushing" ->
  stat_type <> "receiving" ->
  weekly_columns stat_type = None.
Proof.
  intros H1 H2 H3. unfold weekly_columns.
  by rewrite !(proj2 (String.eqb_neq _ _)) by done.
Qed.

(** X8. For a stat type other than the three the function knows
    (['kicking'] and ['defense'] of its docstring among them),
    [fetch_player_stats] asks for the weekly data without a column
    filter, and the only file it writes is named after the stat type
    it was given. *)
Theorem X8_other_stat_type_unfiltered self years stat_type w :
  stat_type <> "passing" -> stat_type <> "rushing" ->
  stat_type <> "receiving" ->
  exists w' df res rest,
    fetch_player_stats nfl to_json self years stat_type w
      = (w', Returned df) /\
    trace w' =
      trace w ++
      Imported
        (import_weekly_data (default [current_season self] years) None) res
      :: rest /\
    forall path v r, Wrote path v r ∈ rest ->
      path = output_dir self +:+ "/" +:+ stat_type +:+ "_stats_"
               +:+ dashed (default [current_season self] years) +:+ ".json".
Proof.
  intros H1 H2 H3.
  unfold fetch_player_stats.
  rewrite (weekly_columns_other _ H1 H2 H3).
  run_calls.
  all: do 4 eexists; split; [reflexivity|]; split;
    [cbn [trace]; rewrite <- ?app_assoc; reflexivity|].
  all: intros path v r Hin.
  all: repeat (apply elem_of_cons in Hin as [Hin | Hin];
               [by injection Hin as -> -> ->|]).
  all: by apply elem_of_nil in Hin.
Qed.

(** X9. The dataset step returns, and its upstream calls are the first
    of its three imports, in order.  Either an import raised: then it
    was the last external call, no write was attempted, the result is
    the empty dictionary and the last line printed reports the
    exception.  Or all three returned: then the clock was read and the
    dataset was handed to one write to [projection_dataset.json], with
    the three tables and in its metadata the clock reading, the
    seasons and the number of records of each table; the result is
    that dataset if the write returned, and the empty dictionary, the
    last line reporting the exception, if the write raised (which may
    leave the file created or cut short). *)
Theorem X9_dataset_courses self historical_years w :
  let years :=
    default (range_int 2018 (current_season self + 1)) historical_years in
  exists w' v evs,
    create_player_projections_dataset nfl json_dump datetime_now_isoformat
      self historical_years w = (w', Returned v) /\
    lists w' = lists w /\
    trace w' = trace w ++ evs /\
    imports evs `prefix_of`
      [import_weekly_data years None;
       import_seasonal_data years;
       import_pbp_data years (Some pbp_columns)] /\
    ((exists c e,
        last evs = Some (Imported c (Raised e)) /\
        touched evs = [] /\ v = VDict [] /\
        last (stdout w') = Some (ErrorCreatingDataset e)) \/
     (exists weekly seasonal pbp created_at dataset res,
        dataset =
          VDict
            [("weekly_stats", VRecords weekly);
             ("seasonal_stats", VRecords seasonal);
             ("advanced_metrics", VRecords pbp);
             ("metadata",
              VDict
                [("created_at", VStr created_at);
                 ("seasons", VInts years);
                 ("records_count",
                  VDict
                    [("weekly", VInt (Z.of_nat (length weekly)));
                     ("seasonal", VInt (Z.of_nat (length seasonal)));
                     ("pbp", VInt (Z.of_nat (length pbp)))])])] /\
        evs = [Imported (import_weekly_data years None) (Returned weekly);
               Imported (import_seasonal_data years) (Returned seasonal);
               Imported (import_pbp_data years (Some pbp_columns))
                 (Returned pbp);
               Clock created_at;
               Wrote (output_dir self +:+ "/projection_dataset.json")
                 dataset res] /\
        (res = Returned tt -> v = dataset) /\
        (forall e,
           res = Raised e ->
           v = VDict [] /\
           last (stdout w') = Some (ErrorCreatingDataset e)))).
Proof.
  intros years. unfold create_player_projections_dataset.
  fold years. run_calls.
  all: do 3 eexists; split; [reflexivity|]; split; [reflexivity|]; split;
    [cbn [trace]; rewrite <- ?app_assoc; reflexivity|].
  all: cbn [app imports omap list_omap].
  all: split;
    [repeat (first [reflexivity | apply prefix_cons | apply prefix_nil])|].
  all: first
    [ right; eexists _, _, _, _, _, _; split; [reflexivity|];
      split; [reflexivity|]; split;
      [intros Hres; first [reflexivity | discriminate Hres]|];
      intros exc Hres; first
        [ discriminate Hres
        | injection Hres as <-; split; [reflexivity|apply last_snoc] ]
    | left; do 2 eexists; split; [reflexivity|]; split; [reflexivity|];
      split; [reflexivity|]; apply last_snoc ].
Qed.

Lemma range_int_lookup start stop k z :
  range_int start stop !! k = Some z <->
  (z = start + Z.of_nat k /\ z < stop)%Z.
Proof.
  unfold range_int. rewrite list_lookup_fmap, fmap_Some. split.
  - intros (j & Hj & ->). apply lookup_seq in Hj as [-> Hlt]. lia.
  - intros [-> Hlt]. exists k. split; [|done].
    apply lookup_seq. split; [done|lia].
Qed.

(** X10. Called without years, the dataset step names in its first line
    and asks in its first upstream call for the seasons from 2018 to
    the current season, in ascending order: the season at index [k] is
    [2018 + k]; there is none if the current season is before 2018. *)
Theorem X10_default_history_since_2018 self w :
  exists w' v years res rest out,
    create_player_projections_dataset nfl json_dump datetime_now_isoformat
      self None w = (w', Returned v) /\
    trace w' =
      trace w ++ Imported (import_weekly_data years None) res :: rest /\
    stdout w' = stdout w ++ CreatingDataset years :: out /\
    (forall k z,
       years !! k = Some z <->
       (z = 2018 + Z.of_nat k /\ z <= current_season self)%Z) /\
    ((current_season self < 2018)%Z -> years = []).
Proof.
  assert (forall k z,
            range_int 2018 (current_season self + 1) !! k = Some z <->
            (z = 2018 + Z.of_nat k /\ z <= current_season self)%Z) as Hk.
  { intros k z. rewrite range_int_lookup. lia. }
  assert ((current_season self < 2018)%Z ->
          range_int 2018 (current_season self + 1) = []) as Hnil.
  { intros Hlt. unfold range_int.
    by replace (Z.to_nat (current_season self + 1 - 2018)) with 0 by lia. }
  unfold create_player_projections_dataset. cbn [default from_option].
  run_calls.
  all: eexists _, _, _, _, _, _; split; [reflexivity|]; split;
    [cbn [trace]; rewrite <- ?app_assoc; reflexivity|]; split;
    [cbn [stdout]; rewrite <- ?app_assoc; reflexivity|].
  all: by split.
Qed.

Ltac contain :=
  intros w; run_calls;
  (do 4 eexists; split; [reflexivity|]; split; [reflexivity|]; split;
   [cbn [trace]; rewrite <- ?app_assoc; reflexivity|]; split;
   [cbn [stdout]; rewrite <- ?app_assoc; reflexivity|]);
  cbn [app saved omap list_omap raised reported];
  (split; [by eauto|]);
  (split; [by repeat constructor|]);
  (split; [first [reflexivity | apply sublist_nil_l]|]);
  (split; [done|reflexivity]).

Lemma fetch_roster_data_contained self years :
  contained (fetch_roster_data nfl to_json self years)
    (import_rosters (default [current_season self] years))
    (output_dir self +:+ "/rosters_"
       +:+ dashed (default [current_season self] years) +:+ ".json").
Proof. unfold fetch_roster_data. contain. Qed.

Lemma fetch_player_stats_contained self years stat_type :
  contained (fetch_player_stats nfl to_json self years stat_type)
    (import_weekly_data (default [current_season self] years)
       (weekly_columns stat_type))
    (output_dir self +:+ "/" +:+ stat_type +:+ "_stats_"
       +:+ dashed (default [current_season self] years) +:+ ".json").
Proof. unfold fetch_player_stats. contain. Qed.

Lemma fetch_schedule_data_contained self years :
  contained (fetch_schedule_data nfl to_json self years)
    (import_schedules (default [current_season self] years))
    (output_dir self +:+ "/schedule_"
       +:+ dashed (default [current_season self] years) +:+ ".json").
Proof. unfold fetch_schedule_data. contain. Qed.

Lemma fetch_injury_reports_contained self :
  contained (fetch_injury_reports nfl to_json self)
    (import_injuries [current_season self])
    (output_dir self +:+ "/injuries_"
       +:+ pretty (current_season self) +:+ ".json").
Proof. unfold fetch_injury_reports. contain. Qed.

Lemma fetch_team_data_contained self years :
  contained (fetch_team_data nfl to_json self years) import_team_desc
    (output_dir self +:+ "/teams.json").
Proof. unfold fetch_team_data. contain. Qed.

Lemma create_player_projections_dataset_contained self historical_years :
  contained
    (create_player_projections_dataset nfl json_dump datetime_now_isoformat
       self historical_years)
    (import_weekly_data
       (default (range_int 2018 (current_season self + 1)) historical_years)
       None)
    (output_dir self +:+ "/projection_dataset.json").
Proof. unfold create_player_projections_dataset. contain. Qed.

Lemma sublist_one_app (p : string) (l1 l2 ps : list string) :
  l1 `sublist_of` [p] -> l2 `sublist_of` ps -> l1 ++ l2 `sublist_of` p :: ps.
Proof. intros H1 H2. by apply (sublist_app l1 [p] l2 ps). Qed.

Lemma run_full_pipeline_effects self w :
  exists w' evs out,
    run_full_pipeline nfl to_json json_dump datetime_now_isoformat self w
      = (w', Returned tt) /\
    lists w' = lists w /\
    trace w' = trace w ++ evs /\
    stdout w' =
      stdout w ++
      StartingPipeline :: out ++
      [PipelineCompleted; AllDataSavedTo (output_dir self); NextSteps] /\
    (exists res rest, evs = Imported import_team_desc res :: rest) /\
    Forall (fun ev => posted ev = false) evs /\
    saved evs `sublist_of` full_pipeline_files self /\
    (omap raised evs = [] -> saved evs = full_pipeline_files self) /\
    omap reported out = omap raised evs.
Proof.
  unfold run_full_pipeline.
  rewrite (PipelineFacts.bind_returned (print StartingPipeline) _ w _ tt
             eq_refl).
  destruct (fetch_team_data_contained self None
              (mkWorld (lists w) (env w) (trace w)
                 (stdout w ++ [StartingPipeline])))
    as (w1 & ? & evs1 & out1 & Hrun1 & Hl1 & Ht1 & Ho1 & Hi1 & Hp1
        & Hs1 & Hc1 & Hr1).
  rewrite (PipelineFacts.bind_returned _ _ _ _ _ Hrun1).
  destruct (fetch_roster_data_contained self (Some [current_season self]) w1)
    as (w2 & ? & evs2 & out2 & Hrun2 & Hl2 & Ht2 & Ho2 & Hi2 & Hp2
        & Hs2 & Hc2 & Hr2).
  rewrite (PipelineFacts.bind_returned _ _ _ _ _ Hrun2).
  destruct (fetch_schedule_data_contained self (Some [current_season self]) w2)
    as (w3 & ? & evs3 & out3 & Hrun3 & Hl3 & Ht3 & Ho3 & Hi3 & Hp3
        & Hs3 & Hc3 & Hr3).
  rewrite (PipelineFacts.bind_returned _ _ _ _ _ Hrun3).
  destruct (fetch_injury_reports_contained self w3)
    as (w4 & ? & evs4 & out4 & Hrun4 & Hl4 & Ht4 & Ho4 & Hi4 & Hp4
        & Hs4 & Hc4 & Hr4).
  rewrite (PipelineFacts.bind_returned _ _ _ _ _ Hrun4).
  destruct (fetch_player_stats_contained self (Some [current_season self])
              "passing" w4)
    as (w5 & ? & evs5 & out5 & Hrun5 & Hl5 & Ht5 & Ho5 & Hi5 & Hp5
        & Hs5 & Hc5 & Hr5).
  rewrite (PipelineFacts.bind_returned _ _ _ _ _ Hrun5).
  destruct (fetch_player_stats_contained self (Some [current_season self])
              "rushing" w5)
    as (w6 & ? & evs6 & out6 & Hrun6 & Hl6 & Ht6 & Ho6 & Hi6 & Hp6
        & Hs6 & Hc6 & Hr6).
  rewrite (PipelineFacts.bind_returned _ _ _ _ _ Hrun6).
  destruct (fetch_player_stats_contained self (Some [current_season self])
              "receiving" w6)
    as (w7 & ? & evs7 & out7 & Hrun7 & Hl7 & Ht7 & Ho7 & Hi7 & Hp7
        & Hs7 & Hc7 & Hr7).
  rewrite (PipelineFacts.bind_returned _ _ _ _ _ Hrun7).
  destruct (create_player_projections_dataset_contained self None w7)
    as (w8 & ? & evs8 & out8 & Hrun8 & Hl8 & Ht8 & Ho8 & Hi8 & Hp8
        & Hs8 & Hc8 & Hr8).
  rewrite (PipelineFacts.bind_returned _ _ _ _ _ Hrun8).
  cbn [default dashed fmap list_fmap join lists trace stdout] in *.
  exists (mkWorld (lists w8) (env w8) (trace w8)
            (((stdout w8 ++ [PipelineCompleted])
                ++ [AllDataSavedTo (output_dir self)]) ++ [NextSteps])),
    (evs1 ++ evs2 ++ evs3 ++ evs4 ++ evs5 ++ evs6 ++ evs7 ++ evs8),
    (out1 ++ out2 ++ out3 ++ out4 ++ out5 ++ out6 ++ out7 ++ out8).
  cbn [lists trace stdout].
  split; [reflexivity|]. split; [congruence|]. split.
  { rewrite Ht8, Ht7, Ht6, Ht5, Ht4, Ht3, Ht2, Ht1. cbn [trace].
    by rewrite <- !app_assoc. }
  split.
  { rewrite Ho8, Ho7, Ho6, Ho5, Ho4, Ho3, Ho2, Ho1. cbn [stdout].
    by rewrite <- !app_assoc. }
  split.
  { destruct Hi1 as (res & rest & ->). by eauto. }
  split; [by repeat apply Forall_app_2|].
  unfold saved in *. rewrite !omap_app.
  split; [|split].
  - unfold full_pipeline_files.
    repeat (apply sublist_one_app; [done|]).
    done.
  - intros Hnone.
    repeat (apply app_eq_nil in Hnone as [? Hnone]).
    rewrite Hc1, Hc2, Hc3, Hc4, Hc5, Hc6, Hc7, Hc8 by done. done.
  - congruence.
Qed.

(** X11. A full run returns, leaves the list objects as they were and
    makes no write request; the files it has written are some of the
    eight files of its steps, in the order of the steps, and all eight
    if none of its external calls raised. *)
Theorem X11_full_run_files self w :
  exists w' evs,
    run_full_pipeline nfl to_json json_dump datetime_now_isoformat self w
      = (w', Returned tt) /\
    lists w' = lists w /\
    trace w' = trace w ++ evs /\
    (forall u h b res, Posted u h b res ∉ evs) /\
    saved evs `sublist_of` full_pipeline_files self /\
    ((forall ev, ev ∈ evs -> raised ev = None) ->
     saved evs = full_pipeline_files self).
Proof.
  destruct (run_full_pipeline_effects self w)
    as (w' & evs & out & Hrun & Hl & Ht & _ & _ & Hp & Hs & Hc & _).
  exists w', evs. repeat (split; [done|]). split; [|split; [done|]].
  - intros u h b res Hin.
    by apply (proj1 (Forall_forall _ _) Hp) in Hin.
  - intros Hnone. apply Hc.
    clear -Hnone. induction evs as [|ev evs IH]; [done|].
    cbn [omap list_omap]. rewrite (Hnone ev) by apply list_elem_of_here.
    apply IH. intros ev' Hin. apply Hnone. by apply list_elem_of_further.
Qed.

(** X12. A full run prints its opening line first and its three
    closing lines last, the one saying that the pipeline completed
    successfully among them, whatever happened in between; the error
    lines in between report the exceptions that its external calls
    raised, each one once and in the order raised. *)
Theorem X12_full_run_reports_every_exception self w :
  exists w' evs out,
    run_full_pipeline nfl to_json json_dump datetime_now_isoformat self w
      = (w', Returned tt) /\
    trace w' = trace w ++ evs /\
    stdout w' =
      stdout w ++
      StartingPipeline :: out ++
      [PipelineCompleted; AllDataSavedTo (output_dir self); NextSteps] /\
    omap reported out = omap raised evs.
Proof.
  destruct (run_full_pipeline_effects self w)
    as (w' & evs & out & Hrun & _ & Ht & Ho & _ & _ & _ & _ & Hr).
  by exists w', evs, out.
Qed.

End FetchFacts.

(** *** Worked runs *)

Example kicking_stats_unfiltered :
  let run := fetch_player_stats rosters_down written demo_pipeline None
               "kicking" fresh_world in
  trace run.1 =
    [Imported (import_weekly_data [2024%Z] None) (Returned [1; 2; 3]);
     Wrote "data/nfl/kicking_stats_2024.json" (VRecords [1; 2; 3])
       (Returned tt)] /\
  run.2 = Returned [1; 2; 3].
Proof. by vm_compute. Qed.

Example pipeline_files_with_rosters_down :
  let run := run_full_pipeline rosters_down written written noon
               demo_pipeline fresh_world in
  saved (trace run.1) =
    ["data/nfl/teams.json";
     "data/nfl/schedule_2024.json";
     "data/nfl/injuries_2024.json";
     "data/nfl/passing_stats_2024.json";
     "data/nfl/rushing_stats_2024.json";
     "data/nfl/receiving_stats_2024.json";
     "data/nfl/projection_dataset.json"] /\
  omap reported (stdout run.1) = [Exception "HTTP Error 404: Not Found"].
Proof. by vm_compute. Qed.

Lemma X8_witness :
  exists w' df res rest,
    fetch_player_stats rosters_down written demo_pipeline None "kicking"
      fresh_world = (w', Returned df) /\
    trace w' =
      trace fresh_world ++
      Imported
        (import_weekly_data (default [current_season demo_pipeline] None)
           None) res
      :: rest /\
    forall path v r, Wrote path v r ∈ rest ->
      path = output_dir demo_pipeline +:+ "/" +:+ "kicking" +:+ "_stats_"
               +:+ dashed (default [current_season demo_pipeline] None)
               +:+ ".json".
Proof.
  refine (X8_other_stat_type_unfiltered rosters_down written demo_pipeline
          None "kicking" fresh_world _ _ _); discriminate.
Defined.

End FetchMore.

(** ** Properties of [main] of scripts/nfl-data-pipeline.py *)

Module CliFacts.

Import Pipeline Measures FetchMore.

Section Process.

Context {Dict Env : Type}.
Variable nfl : import_call -> Env -> Env * outcome (DataFrame Dict).
Variable to_json : DataFrame Dict -> string -> Env -> Env * outcome unit.
Variable json_dump : value Dict -> string -> Env -> Env * outcome unit.
Variable datetime_now_isoformat : Env -> Env * string.
Variable os_getenv : string -> Env -> option string.
Variable os_makedirs : string -> Env -> Env * outcome unit.

Implicit Types (w : Cli.World Dict Env).

Lemma init_run output_dir w :
  Cli.__init__ os_getenv os_makedirs output_dir w =
  match os_makedirs output_dir (Cli.env w) with
  | (e', Returned _) =>
      (Cli.mkWorld (Cli.lists w) e'
         (Cli.trace w ++ [Cli.Made output_dir (Returned tt)])
         (Cli.stdout w ++
            [Cli.Initialized; Cli.OutputDirectory output_dir;
             Cli.CurrentSeason 2024]),
       Returned
         (mkPipeline output_dir 2024
            (os_getenv "NEXT_PUBLIC_SUPABASE_URL" (Cli.env w))
            (os_getenv "NEXT_PUBLIC_SUPABASE_ANON_KEY" (Cli.env w))))
  | (e', Raised x) =>
      (Cli.mkWorld (Cli.lists w) e'
         (Cli.trace w ++ [Cli.Made output_dir (Raised x)]) (Cli.stdout w),
       Raised x)
  end.
Proof.
  unfold Cli.__init__, Cli.getenv, Cli.makedirs, Cli.print, bind, ret.
  cbn [Cli.lists Cli.env Cli.trace Cli.stdout].
  destruct (os_makedirs output_dir (Cli.env w)) as [e' [[]|x]]; [|done].
  cbn [Cli.lists Cli.env Cli.trace Cli.stdout].
  by rewrite <- !app_assoc.
Qed.

(** A contained step, as a method of the process. *)
Lemma method_contained {A} (step : M (World Dict Env) A) c path w :
  contained step c path ->
  exists w' v evs out,
    Cli.method step w = (w', Returned v) /\
    Cli.lists w' = Cli.lists w /\
    Cli.trace w' = Cli.trace w ++ (Cli.Called <$> evs) /\
    Cli.stdout w' = Cli.stdout w ++ (Cli.Said <$> out) /\
    (exists res rest, evs = Imported c res :: rest) /\
    Forall (fun ev => posted ev = false) evs /\
    saved evs `sublist_of` [path].
Proof.
  intros Hstep.
  destruct (Hstep (mkWorld (Cli.lists w) (Cli.env w) [] []))
    as (p & v & evs & out & Hrun & Hl & Ht & Ho & Hi & Hp & Hs & _).
  cbn [lists trace stdout app] in Hl, Ht, Ho.
  exists (Cli.mkWorld (lists p) (env p)
            (Cli.trace w ++ (Cli.Called <$> trace p))
            (Cli.stdout w ++ (Cli.Said <$> stdout p))), v, evs, out.
  unfold Cli.method. rewrite Hrun, Ht, Ho. by repeat split.
Qed.

Lemma method_run {A} (m : M (World Dict Env) A) w p r :
  m (mkWorld (Cli.lists w) (Cli.env w) [] []) = (p, r) ->
  Cli.method m w =
  (Cli.mkWorld (lists p) (env p)
     (Cli.trace w ++ (Cli.Called <$> trace p))
     (Cli.stdout w ++ (Cli.Said <$> stdout p)),
   r).
Proof. unfold Cli.method. by intros ->. Qed.

Lemma sublist_one_of (p : string) (ps l : list string) k :
  l `sublist_of` [p] -> ps !! k = Some p -> l `sublist_of` ps.
Proof.
  intros Hl Hk. transitivity [p]; [done|].
  clear Hl. revert k Hk. induction ps as [|q ps IH]; intros [|k] Hk; try done.
  - injection Hk as ->. apply sublist_skip, sublist_nil_l.
  - apply sublist_cons. by eapply IH.
Qed.

(** A single step as a command of [main]. *)
Lemma command_contained {A} (step : M (World Dict Env) A) c path k w :
  contained step c path ->
  Cli.output_files !! k = Some path ->
  exists w' evs out,
    (Cli.method step ;; ret tt)%py w = (w', Returned tt) /\
    Cli.lists w' = Cli.lists w /\
    Cli.trace w' = Cli.trace w ++ (Cli.Called <$> evs) /\
    Cli.stdout w' = Cli.stdout w ++ out /\
    Forall (fun ev => posted ev = false) evs /\
    saved evs `sublist_of` Cli.output_files /\
    head (imports evs) = Some c.
Proof.
  intros Hstep Hk.
  destruct (method_contained step c path w Hstep)
    as (w' & v & evs & out & Hrun & Hl & Ht & Ho & (res & rest & ->) & Hp & Hs).
  exists w', (Imported c res :: rest), (Cli.Said <$> out).
  unfold bind. rewrite Hrun.
  repeat split; try done. by eapply sublist_one_of.
Qed.

Lemma main_cases argv w :
  match os_makedirs "data/nfl" (Cli.env w) with
  | (e', Raised x) =>
      Cli.main nfl to_json json_dump datetime_now_isoformat os_getenv
        os_makedirs argv w =
      (Cli.mkWorld (Cli.lists w) e'
         (Cli.trace w ++ [Cli.Made "data/nfl" (Raised x)]) (Cli.stdout w),
       Raised x)
  | (e', Returned _) =>
      exists w' evs out,
        Cli.main nfl to_json json_dump datetime_now_isoformat os_getenv
          os_makedirs argv w = (w', Returned tt) /\
        Cli.lists w' = Cli.lists w /\
        Cli.trace w' =
          Cli.trace w ++
          Cli.Made "data/nfl" (Returned tt) :: (Cli.Called <$> evs) /\
        Cli.stdout w' =
          Cli.stdout w ++
          [Cli.Initialized; Cli.OutputDirectory "data/nfl";
           Cli.CurrentSeason 2024] ++ out /\
        Forall (fun ev => posted ev = false) evs /\
        saved evs `sublist_of` Cli.output_files /\
        head (imports evs) = Cli.entry_point (Cli.command_of argv) /\
        (Cli.entry_point (Cli.command_of argv) = None ->
         evs = [] /\ out = [Cli.Usage])
  end.
Proof.
  unfold Cli.main. fold (Cli.command_of argv).
  generalize (Cli.command_of argv). intros command.
  destruct (os_makedirs "data/nfl" (Cli.env w)) as [e' [[]|x]] eqn:Hmade;
    unfold bind at 1; rewrite init_run, Hmade; [|done].
  set (pipeline := mkPipeline _ _ _ _).
  set (w1 := Cli.mkWorld _ _ _ _).
  assert (forall w' evs out (P : Prop),
            Cli.lists w' = Cli.lists w1 /\
            Cli.trace w' = Cli.trace w1 ++ (Cli.Called <$> evs) /\
            Cli.stdout w' = Cli.stdout w1 ++ out /\ P ->
            Cli.lists w' = Cli.lists w /\
            Cli.trace w' =
              Cli.trace w ++
              Cli.Made "data/nfl" (Returned tt) :: (Cli.Called <$> evs) /\
            Cli.stdout w' =
              Cli.stdout w ++
              [Cli.Initialized; Cli.OutputDirectory "data/nfl";
               Cli.CurrentSeason 2024] ++ out /\ P) as Hfrom.
  { intros w' evs out P (Hl & Ht & Ho & HP). subst w1.
    cbn [Cli.lists Cli.trace Cli.stdout] in Hl, Ht, Ho.
    rewrite Hl, Ht, Ho, <- !app_assoc. done. }
  unfold Cli.entry_point.
  destruct (String.eqb command "full").
  { destruct (run_full_pipeline_effects nfl to_json json_dump
                datetime_now_isoformat pipeline
                (mkWorld (Cli.lists w1) (Cli.env w1) [] []))
      as (p & evs & out & Hrun & Hl & Ht & Ho & (res & rest & ->) & Hp & Hs
          & _).
    rewrite (method_run _ _ _ _ Hrun).
    eexists _, _, _. split; [reflexivity|]. apply Hfrom.
    cbn [Cli.lists Cli.trace Cli.stdout lists trace stdout app] in *.
    rewrite Hl, Ht, Ho. by repeat split. }
  destruct (String.eqb command "rosters").
  { destruct (command_contained _ _ _ 1 w1
                (fetch_roster_data_contained nfl to_json pipeline None)
                ltac:(vm_compute; reflexivity))
      as (w' & evs & out & Hrun & Hl & Ht & Ho & Hp & Hs & Hi).
    exists w', evs, out. split; [done|]. apply Hfrom. by repeat split. }
  destruct (String.eqb command "stats").
  { destruct (command_contained _ _ _ 4 w1
                (fetch_player_stats_contained nfl to_json pipeline None
                   "passing")
                ltac:(vm_compute; reflexivity))
      as (w' & evs & out & Hrun & Hl & Ht & Ho & Hp & Hs & Hi).
    exists w', evs, out. split; [done|]. apply Hfrom. by repeat split. }
  destruct (String.eqb command "schedule").
  { destruct (command_contained _ _ _ 2 w1
                (fetch_schedule_data_contained nfl to_json pipeline None)
                ltac:(vm_compute; reflexivity))
      as (w' & evs & out & Hrun & Hl & Ht & Ho & Hp & Hs & Hi).
    exists w', evs, out. split; [done|]. apply Hfrom. by repeat split. }
  destruct (String.eqb command "injuries").
  { destruct (command_contained _ _ _ 3 w1
                (fetch_injury_reports_contained nfl to_json pipeline)
                ltac:(vm_compute; reflexivity))
      as (w' & evs & out & Hrun & Hl & Ht & Ho & Hp & Hs & Hi).
    exists w', evs, out. split; [done|]. apply Hfrom. by repeat split. }
  destruct (String.eqb command "projections").
  { destruct (command_contained _ _ _ 7 w1
                (create_player_projections_dataset_contained nfl json_dump
                   datetime_now_isoformat pipeline None)
                ltac:(vm_compute; reflexivity))
      as (w' & evs & out & Hrun & Hl & Ht & Ho & Hp & Hs & Hi).
    exists w', evs, out. split; [done|]. apply Hfrom. by repeat split. }
  eexists _, [], [Cli.Usage]. split; [reflexivity|]. apply Hfrom.
  cbn [Cli.lists Cli.trace Cli.stdout fmap list_fmap].
  rewrite app_nil_r. repeat split; try done. apply sublist_nil_l.
Qed.

End Process.

Section Main.

Context {Dict Env : Type}.
Variable nfl : import_call -> Env -> Env * outcome (DataFrame Dict).
Variable to_json : DataFrame Dict -> string -> Env -> Env * outcome unit.
Variable json_dump : value Dict -> string -> Env -> Env * outcome unit.
Variable datetime_now_isoformat : Env -> Env * string.
Variable os_getenv : string -> Env -> option string.
Variable os_makedirs : string -> Env -> Env * outcome unit.

Implicit Types (w : Cli.World Dict Env).

Lemma calls_called (evs : list (event Dict)) :
  Cli.calls (Cli.Called <$> evs) = evs.
Proof.
  induction evs as [|ev evs IH]; [done|].
  cbn [fmap list_fmap Cli.calls omap list_omap]. f_equal. exact IH.
Qed.

Lemma entry_point_none command :
  command ∉ ["full"; "rosters"; "stats"; "schedule"; "injuries";
             "projections"] ->
  Cli.entry_point command = None.
Proof.
  intros Hnot. unfold Cli.entry_point.
  repeat
    (match goal with
     | |- context [String.eqb command ?s] =>
         destruct (String.eqb_spec command s) as [->|_];
         [exfalso; apply Hnot; set_solver|]
     end).
  done.
Qed.

(** X13. The first external call of [main] creates the directory
    [data/nfl], whatever the command.  If that raises, [main] raises
    the same exception, having printed nothing and called nothing
    else.  If it returns, [main] returns, and its output starts with
    the three lines of the constructor. *)
Theorem X13_main_raises_only_without_directory argv w w' r :
  Cli.main nfl to_json json_dump datetime_now_isoformat os_getenv
    os_makedirs argv w = (w', r) ->
  exists res rest,
    Cli.trace w' = Cli.trace w ++ Cli.Made "data/nfl" res :: rest /\
    (forall x,
       res = Raised x ->
       r = Raised x /\ rest = [] /\ Cli.stdout w' = Cli.stdout w) /\
    (res = Returned tt ->
     r = Returned tt /\
     exists out,
       Cli.stdout w' =
         Cli.stdout w ++
         [Cli.Initialized; Cli.OutputDirectory "data/nfl";
          Cli.CurrentSeason 2024] ++ out).
Proof.
  intros Hrun.
  pose proof (main_cases nfl to_json json_dump datetime_now_isoformat
                os_getenv os_makedirs argv w) as Hcases.
  destruct (os_makedirs "data/nfl" (Cli.env w)) as [e' [[]|x]].
  - destruct Hcases as (w1 & evs & out & Hrun1 & _ & Ht & Ho & _).
    rewrite Hrun1 in Hrun. injection Hrun as <- <-.
    eexists _, _. split; [exact Ht|]. split; [done|]. by eauto.
  - rewrite Hcases in Hrun. injection Hrun as <- <-.
    eexists _, _. split; [reflexivity|]. split; [|done].
    by intros ? [= <-].
Qed.

(** X14. Whatever the command and the environment, [main] makes no
    write request to the database, leaves the list objects as they
    were, and writes no file other than the eight files of season 2024
    under [data/nfl], in the order of that list. *)
Theorem X14_main_never_posts argv w w' r evs :
  Cli.main nfl to_json json_dump datetime_now_isoformat os_getenv
    os_makedirs argv w = (w', r) ->
  Cli.trace w' = Cli.trace w ++ evs ->
  Cli.lists w' = Cli.lists w /\
  (forall u h b res, Cli.Called (Posted u h b res) ∉ evs) /\
  saved (Cli.calls evs) `sublist_of` Cli.output_files.
Proof.
  intros Hrun Ht.
  pose proof (main_cases nfl to_json json_dump datetime_now_isoformat
                os_getenv os_makedirs argv w) as Hcases.
  destruct (os_makedirs "data/nfl" (Cli.env w)) as [e' [[]|x]].
  - destruct Hcases as (w1 & evs1 & out & Hrun1 & Hl & Ht1 & _ & Hp & Hs & _).
    rewrite Hrun1 in Hrun. injection Hrun as <- <-.
    rewrite Ht1 in Ht. apply app_inv_head in Ht as <-.
    split; [done|]. split.
    + intros u h b res [Hin|Hin]%elem_of_cons; [done|].
      apply list_elem_of_fmap in Hin as (ev & [= <-] & Hin).
      by apply (proj1 (Forall_forall _ _) Hp) in Hin.
    + cbn [Cli.calls omap list_omap]. fold (Cli.calls (Cli.Called <$> evs1)).
      by rewrite calls_called.
  - rewrite Hcases in Hrun. injection Hrun as <- <-.
    cbn [Cli.lists Cli.trace] in *. apply app_inv_head in Ht as <-.
    split; [done|]. split; [|apply sublist_nil_l].
    intros u h b res [Hin|Hin]%elem_of_cons; [done|].
    by apply elem_of_nil in Hin.
Qed.

(** X15. Once the directory is made, the first upstream call of [main]
    is the one of its command, the command being the first argument
    and ['full'] without one: the team table for ['full'], the rosters,
    the schedule and the injuries of 2024 for ['rosters'], ['schedule']
    and ['injuries'], the weekly data of 2024 with the passing columns
    for ['stats'], the weekly data of 2018 to 2024 for ['projections'];
    no upstream call for any other word. *)
Theorem X15_main_dispatch argv w w' r evs :
  Cli.main nfl to_json json_dump datetime_now_isoformat os_getenv
    os_makedirs argv w = (w', r) ->
  Cli.trace w' = Cli.trace w ++ Cli.Made "data/nfl" (Returned tt) :: evs ->
  head (imports (Cli.calls evs)) = Cli.entry_point (Cli.command_of argv).
Proof.
  intros Hrun Ht.
  pose proof (main_cases nfl to_json json_dump datetime_now_isoformat
                os_getenv os_makedirs argv w) as Hcases.
  destruct (os_makedirs "data/nfl" (Cli.env w)) as [e' [[]|x]].
  - destruct Hcases as (w1 & evs1 & out & Hrun1 & _ & Ht1 & _ & _ & _ & Hi & _).
    rewrite Hrun1 in Hrun. injection Hrun as <- <-.
    rewrite Ht1 in Ht. apply app_inv_head in Ht. injection Ht as <-.
    by rewrite calls_called.
  - rewrite Hcases in Hrun. injection Hrun as <- <-.
    cbn [Cli.trace] in Ht. by apply app_inv_head in Ht.
Qed.

(** X16. For a command that is none of the six, [main] still creates
    the directory, which is its only external call; if it returns, it
    has printed the three lines of the constructor and the usage
    line. *)
Theorem X16_main_unknown_command argv w w' r :
  Cli.command_of argv ∉
    ["full"; "rosters"; "stats"; "schedule"; "injuries"; "projections"] ->
  Cli.main nfl to_json json_dump datetime_now_isoformat os_getenv
    os_makedirs argv w = (w', r) ->
  (exists res, Cli.trace w' = Cli.trace w ++ [Cli.Made "data/nfl" res]) /\
  (r = Returned tt ->
   Cli.stdout w' =
     Cli.stdout w ++
     [Cli.Initialized; Cli.OutputDirectory "data/nfl";
      Cli.CurrentSeason 2024; Cli.Usage]).
Proof.
  intros Hnone%entry_point_none Hrun.
  pose proof (main_cases nfl to_json json_dump datetime_now_isoformat
                os_getenv os_makedirs argv w) as Hcases.
  destruct (os_makedirs "data/nfl" (Cli.env w)) as [e' [[]|x]].
  - destruct Hcases
      as (w1 & evs1 & out & Hrun1 & _ & Ht1 & Ho & _ & _ & _ & Hu).
    rewrite Hrun1 in Hrun. injection Hrun as <- <-.
    destruct (Hu Hnone) as [-> ->]. split; [by eauto|]. done.
  - rewrite Hcases in Hrun. injection Hrun as <- <-.
    split; [by eauto|]. done.
Qed.

End Main.

(** *** From the environment to the requests *)

Section Credentials.

Context {Dict Env : Type}.
Variable requests_post :
  string -> gmap string string -> list Dict -> Env -> Env * outcome response.
Variable os_getenv : string -> Env -> option string.
Variable os_makedirs : string -> Env -> Env * outcome unit.

(** X17. Every request of an upload through a pipeline object that the
    constructor returned goes to the base URL that the variable
    [NEXT_PUBLIC_SUPABASE_URL] had in the environment of the
    constructor, with the key that [NEXT_PUBLIC_SUPABASE_ANON_KEY] had
    there in its headers; a request is made only if both were set and
    not empty when the object was constructed. *)
Theorem X17_credentials_from_environment output_dir
    (w w1 : Cli.World Dict Env) self data_type data
    (p p' : World Dict Env) r evs ev :
  Cli.__init__ os_getenv os_makedirs output_dir w = (w1, Returned self) ->
  update_supabase_database requests_post self data_type data p = (p', r) ->
  trace p' = trace p ++ evs ->
  ev ∈ evs ->
  exists base_url key b res,
    os_getenv "NEXT_PUBLIC_SUPABASE_URL" (Cli.env w) = Some base_url /\
    base_url <> "" /\
    os_getenv "NEXT_PUBLIC_SUPABASE_ANON_KEY" (Cli.env w) = Some key /\
    key <> "" /\
    ev = Posted (base_url +:+ "/rest/v1/" +:+ table_name data_type)
           {[ "apikey" := key;
              "Authorization" := "Bearer " +:+ key;
              "Content-Type" := "application/json";
              "Prefer" := "return=minimal" ]}
           b res.
Proof.
  rewrite init_run.
  destruct (os_makedirs output_dir (Cli.env w)) as [e' [[]|x]]; [|done].
  intros [= <- <-] Hrun Ht Hin.
  destruct (UploaderMore.upload_requests _ _ _ _ _ _ _ _ Hrun Ht)
    as [[-> _] | (Hurl & Hkey & ->)]; [by apply elem_of_nil in Hin|].
  cbn [supabase_url supabase_key] in Hurl, Hkey.
  apply UploaderMore.truthy_Some in Hurl as (base_url & Hurl & ?).
  apply UploaderMore.truthy_Some in Hkey as (key & Hkey & ?).
  apply PipelineFacts.exchange_posted in Hin as (b & res & ->).
  exists base_url, key, b, res.
  unfold make_url, make_headers. cbn [supabase_url supabase_key].
  by rewrite Hurl, Hkey.
Qed.

End Credentials.

(** *** Worked runs *)

Example main_rosters_with_rosters_down :
  Cli.demo_main Cli.made ["nfl-data-pipeline.py"; "rosters"] =
  (Cli.mkWorld ∅ tt
     [Cli.Made "data/nfl" (Returned tt);
      Cli.Called
        (Imported (import_rosters [2024%Z])
           (Raised (Exception "HTTP Error 404: Not Found")))]
     [Cli.Initialized; Cli.OutputDirectory "data/nfl";
      Cli.CurrentSeason 2024;
      Cli.Said (Fetching "roster data" [2024%Z]);
      Cli.Said
        (ErrorFetching "roster data"
           (Exception "HTTP Error 404: Not Found"))],
   Returned tt).
Proof. by vm_compute. Qed.

Lemma X13_witness :
  exists res rest,
    Cli.trace (Cli.demo_main Cli.read_only ["nfl-data-pipeline.py"]).1 =
      [] ++ Cli.Made "data/nfl" res :: rest /\
    (forall x,
       res = Raised x ->
       (Cli.demo_main Cli.read_only ["nfl-data-pipeline.py"]).2 = Raised x /\
       rest = [] /\
       Cli.stdout (Cli.demo_main Cli.read_only ["nfl-data-pipeline.py"]).1
         = []) /\
    (res = Returned tt ->
     (Cli.demo_main Cli.read_only ["nfl-data-pipeline.py"]).2 = Returned tt /\
     exists out,
       Cli.stdout (Cli.demo_main Cli.read_only ["nfl-data-pipeline.py"]).1 =
         [] ++
         [Cli.Initialized; Cli.OutputDirectory "data/nfl";
          Cli.CurrentSeason 2024] ++ out).
Proof.
  refine (X13_main_raises_only_without_directory rosters_down written written
          noon Cli.unset Cli.read_only ["nfl-data-pipeline.py"]
          (Cli.mkWorld ∅ tt [] [])
          (Cli.demo_main Cli.read_only ["nfl-data-pipeline.py"]).1
          (Cli.demo_main Cli.read_only ["nfl-data-pipeline.py"]).2 _).
  vm_compute. reflexivity.
Defined.

Lemma X14_witness :
  Cli.lists (Cli.demo_main Cli.made ["nfl-data-pipeline.py"]).1 = ∅ /\
  (forall u h b res,
     Cli.Called (Posted u h b res)
       ∉ Cli.trace (Cli.demo_main Cli.made ["nfl-data-pipeline.py"]).1) /\
  saved
    (Cli.calls (Cli.trace (Cli.demo_main Cli.made ["nfl-data-pipeline.py"]).1))
    `sublist_of` Cli.output_files.
Proof.
  refine (X14_main_never_posts rosters_down written written noon Cli.unset
          Cli.made ["nfl-data-pipeline.py"] (Cli.mkWorld ∅ tt [] [])
          (Cli.demo_main Cli.made ["nfl-data-pipeline.py"]).1
          (Cli.demo_main Cli.made ["nfl-data-pipeline.py"]).2
          (Cli.trace (Cli.demo_main Cli.made ["nfl-data-pipeline.py"]).1)
          _ _).
  - vm_compute. reflexivity.
  - reflexivity.
Defined.

Lemma X15_witness :
  head
    (imports
       (Cli.calls
          (drop 1
             (Cli.trace
                (Cli.demo_main Cli.made ["nfl-data-pipeline.py"; "stats"]).1))))
  = Cli.entry_point (Cli.command_of ["nfl-data-pipeline.py"; "stats"]).
Proof.
  refine (X15_main_dispatch rosters_down written written noon Cli.unset
          Cli.made ["nfl-data-pipeline.py"; "stats"]
          (Cli.mkWorld ∅ tt [] [])
          (Cli.demo_main Cli.made ["nfl-data-pipeline.py"; "stats"]).1
          (Cli.demo_main Cli.made ["nfl-data-pipeline.py"; "stats"]).2
          (drop 1
             (Cli.trace
                (Cli.demo_main Cli.made ["nfl-data-pipeline.py"; "stats"]).1))
          _ _).
  - vm_compute. reflexivity.
  - vm_compute. reflexivity.
Defined.

Lemma X16_witness :
  (exists res,
     Cli.trace
       (Cli.demo_main Cli.made ["nfl-data-pipeline.py"; "standings"]).1
     = [] ++ [Cli.Made "data/nfl" res]) /\
  ((Cli.demo_main Cli.made ["nfl-data-pipeline.py"; "standings"]).2
     = Returned tt ->
   Cli.stdout
     (Cli.demo_main Cli.made ["nfl-data-pipeline.py"; "standings"]).1 =
     [] ++
     [Cli.Initialized; Cli.OutputDirectory "data/nfl";
      Cli.CurrentSeason 2024; Cli.Usage]).
Proof.
  refine (X16_main_unknown_command rosters_down written written noon
          Cli.unset Cli.made ["nfl-data-pipeline.py"; "standings"]
          (Cli.mkWorld ∅ tt [] [])
          (Cli.demo_main Cli.made ["nfl-data-pipeline.py"; "standings"]).1
          (Cli.demo_main Cli.made ["nfl-data-pipeline.py"; "standings"]).2
          _ _).
  - apply (bool_decide_unpack _). vm_compute. exact I.
  - vm_compute. reflexivity.
Defined.

Lemma X17_witness :
  exists base_url key b res,
    Cli.configured "NEXT_PUBLIC_SUPABASE_URL" (@nil (outcome response))
      = Some base_url /\
    base_url <> "" /\
    Cli.configured "NEXT_PUBLIC_SUPABASE_ANON_KEY" (@nil (outcome response))
      = Some key /\
    key <> "" /\
    Posted "https://db.example/rest/v1/player_game_stats"
      (make_headers demo_pipeline) (seq 0 100)
      (Returned (mkResponse 200 ""))
    = Posted (base_url +:+ "/rest/v1/" +:+ table_name "stats")
        {[ "apikey" := key;
           "Authorization" := "Bearer " +:+ key;
           "Content-Type" := "application/json";
           "Prefer" := "return=minimal" ]}
        b res.
Proof.
  refine (X17_credentials_from_environment scripted Cli.configured Cli.made
          "data/nfl" (Cli.mkWorld ∅ [] [] [])
          (Cli.__init__ Cli.configured Cli.made "data/nfl"
             (Cli.mkWorld ∅ [] [] [])).1
          demo_pipeline "stats" 0 (demo_world 250 [])
          (demo_upload demo_pipeline "stats" 250 []).1
          (demo_upload demo_pipeline "stats" 250 []).2
          (trace (demo_upload demo_pipeline "stats" 250 []).1)
          _ _ _ _ _).
  - vm_compute. reflexivity.
  - vm_compute. reflexivity.
  - reflexivity.
  - vm_compute. apply list_elem_of_here.
Defined.

End CliFacts.

(** ** More properties of scripts/simple-nfl-data-fetch.py *)

Module SimpleMore.

Import Simple.

Section SimpleMoreFacts.

Context {Dict Env : Type}.
Variables teams sample_players : list Dict.
Variables passing_stats rushing_stats receiving_stats : list Dict.
Variables weekly_stats seasonal_stats : list Dict.
Variable json_dump : value Dict -> string -> Env -> Env * outcome unit.
Variable datetime_now_isoformat : Env -> Env * string.
Variable os_makedirs : string -> Env -> Env * outcome unit.

Implicit Types (w : World Dict Env) (self : SimpleNFLDataFetcher).

Lemma pipeline_steps_output self w :
  exists w1 r evs out created_at,
    pipeline_steps Dict teams sample_players passing_stats rushing_stats
      receiving_stats weekly_stats seasonal_stats Env json_dump
      datetime_now_isoformat self w = (w1, r) /\
    trace w1 = trace w ++ evs /\
    stdout w1 = stdout w ++ out /\
    SimpleCli.written evs `prefix_of`
      SimpleCli.simple_pipeline_output Dict teams sample_players
        passing_stats rushing_stats receiving_stats weekly_stats
        seasonal_stats self created_at /\
    (r = Returned tt <->
     SimpleCli.written evs =
       SimpleCli.simple_pipeline_output Dict teams sample_players
         passing_stats rushing_stats receiving_stats weekly_stats
         seasonal_stats self created_at) /\
    (r = Returned tt -> last out = Some NextSteps) /\
    (forall x, r = Raised x -> exists ev, ev ∈ evs /\ raised ev = Some x) /\
    (SimpleCli.readings evs = [created_at] \/
     SimpleCli.readings evs = [] /\ created_at = "" /\ r <> Returned tt).
Proof.
  unfold pipeline_steps, fetch_teams_data, create_sample_rosters,
    create_sample_stats, create_projection_dataset.
  cbn [for_in].
  unfold bind, dump, now, print, ret.
  cbn [env trace stdout].
  repeat
    (match goal with
     | |- context [datetime_now_isoformat ?e] =>
         destruct (datetime_now_isoformat e) as [? created_at]
     | |- context [json_dump ?v ?p ?e] =>
         destruct (json_dump v p e) as [? [[]|?]]
     end; cbn [env trace stdout]).
  all: first [eexists _, _, _, _, created_at | eexists _, _, _, _, ""].
  all: split; [reflexivity|]; split;
    [cbn [trace]; rewrite <- ?app_assoc; reflexivity|]; split;
    [cbn [stdout]; rewrite <- ?app_assoc;
     first [reflexivity|symmetry; apply app_nil_r]|].
  all: cbn [app SimpleCli.written omap list_omap];
    unfold SimpleCli.simple_pipeline_output.
  all: split; [repeat apply prefix_cons; first [reflexivity|apply prefix_nil]|].
  all: split; [split; intros H; first [discriminate H | reflexivity]|].
  all: split; [intros H; first [discriminate H | reflexivity]|].
  all: split; [|first [left; reflexivity | right; by repeat split]].
  all: intros x Hx; first
    [ discriminate Hx
    | injection Hx as <-;
      lazymatch goal with
      | |- context [Wrote ?p ?v (Raised ?e)] =>
          exists (Wrote p v (Raised e)); split;
          [repeat first [apply list_elem_of_here | apply list_elem_of_further]
          |reflexivity]
      end ].
Qed.

Lemma simple_calls_called (evs : list (event Dict)) :
  SimpleCli.calls (SimpleCli.Called <$> evs) = evs.
Proof.
  induction evs as [|ev evs IH]; [done|].
  cbn [fmap list_fmap SimpleCli.calls omap list_omap]. f_equal. exact IH.
Qed.

(** X18. The writes of a run of the simplified pipeline that returned,
    with what was handed to them, are the first of its six writes in
    order: the team table, the sample roster, the three sample stat
    tables and the projection dataset, under names that carry the year
    2024 whatever the season of the fetcher.  The run reads the clock
    at most once, and the [created_at] of the dataset handed to the
    sixth write is that reading.  The run returns exactly when all six
    writes returned, and it has then read the clock. *)
Theorem X18_simple_pipeline_writes_in_order self w w' r :
  run_simple_pipeline Dict teams sample_players passing_stats rushing_stats
    receiving_stats weekly_stats seasonal_stats Env json_dump
    datetime_now_isoformat self w = (w', r) ->
  exists evs,
    trace w' = trace w ++ evs /\
    length (SimpleCli.readings evs) <= 1 /\
    (r = Returned tt -> exists t, SimpleCli.readings evs = [t]) /\
    SimpleCli.written evs `prefix_of`
      SimpleCli.simple_pipeline_output Dict teams sample_players
        passing_stats rushing_stats receiving_stats weekly_stats
        seasonal_stats self (default "" (head (SimpleCli.readings evs))) /\
    (r = Returned tt <->
     SimpleCli.written evs =
       SimpleCli.simple_pipeline_output Dict teams sample_players
         passing_stats rushing_stats receiving_stats weekly_stats
         seasonal_stats self (default "" (head (SimpleCli.readings evs)))).
Proof.
  rewrite SimpleFacts.run_simple_pipeline_eq.
  destruct (pipeline_steps_output self
              (mkWorld (env w) (trace w) (stdout w ++ [StartingPipeline])))
    as (w1 & r1 & evs & out & created_at & Hsteps & Ht & _ & Hprefix & Hall
        & _ & _ & Hclock).
  rewrite Hsteps. cbn [trace] in Ht.
  assert (default "" (head (SimpleCli.readings evs)) = created_at /\
          length (SimpleCli.readings evs) <= 1 /\
          (r1 = Returned tt -> exists t, SimpleCli.readings evs = [t]))
    as (Hdef & Hone & Hread).
  { destruct Hclock as [-> | (-> & -> & Hnot)]; cbn [head default length].
    - split; [done|]. split; [lia|]. by eauto.
    - split; [done|]. split; [lia|]. done. }
  destruct r1 as [[]|e1]; intros [= <- <-]; exists evs; rewrite Hdef;
    (split; [done|]); (split; [done|]); split; try done.
Qed.

Lemma simple_init_run output_dir (w : SimpleCli.World Dict Env) :
  SimpleCli.__init__ os_makedirs output_dir w =
  match os_makedirs output_dir (SimpleCli.env w) with
  | (e', Returned _) =>
      (SimpleCli.mkWorld e'
         (SimpleCli.trace w ++ [SimpleCli.Made output_dir (Returned tt)])
         (SimpleCli.stdout w ++
            [SimpleCli.Initialized; SimpleCli.OutputDirectory output_dir;
             SimpleCli.CurrentSeason 2024]),
       Returned (mkFetcher output_dir 2024))
  | (e', Raised x) =>
      (SimpleCli.mkWorld e'
         (SimpleCli.trace w ++ [SimpleCli.Made output_dir (Raised x)])
         (SimpleCli.stdout w),
       Raised x)
  end.
Proof.
  unfold SimpleCli.__init__, SimpleCli.makedirs, SimpleCli.print, bind, ret.
  cbn [SimpleCli.env SimpleCli.trace SimpleCli.stdout].
  destruct (os_makedirs output_dir (SimpleCli.env w)) as [e' [[]|x]]; [|done].
  cbn [SimpleCli.env SimpleCli.trace SimpleCli.stdout].
  by rewrite <- !app_assoc.
Qed.

(** X19. The first external call of [main] of the simplified script
    creates the directory [data/nfl].  If that raises, [main] raises
    the same exception and has printed nothing, the failure line
    neither: the constructor runs outside the [try].  If it returns,
    the output starts with the three lines of the constructor and the
    opening line of the pipeline; [main] then returns only after all
    six files were written under [data/nfl], its last line being the
    next steps, and raises only the exception of a write that raised,
    its last line being the failure line for it. *)
Theorem X19_simple_main_failures (w w' : SimpleCli.World Dict Env) r :
  SimpleCli.main Dict teams sample_players passing_stats rushing_stats
    receiving_stats weekly_stats seasonal_stats Env json_dump
    datetime_now_isoformat os_makedirs w = (w', r) ->
  exists res rest,
    SimpleCli.trace w' =
      SimpleCli.trace w ++ SimpleCli.Made "data/nfl" res :: rest /\
    (forall x,
       res = Raised x ->
       r = Raised x /\ rest = [] /\ SimpleCli.stdout w' = SimpleCli.stdout w) /\
    (res = Returned tt ->
     exists out,
       SimpleCli.stdout w' =
         SimpleCli.stdout w ++
         [SimpleCli.Initialized; SimpleCli.OutputDirectory "data/nfl";
          SimpleCli.CurrentSeason 2024; SimpleCli.Said StartingPipeline]
         ++ out /\
       (r = Returned tt ->
        last out = Some (SimpleCli.Said NextSteps) /\
        exists created_at,
          SimpleCli.written (SimpleCli.calls rest) =
            SimpleCli.simple_pipeline_output Dict teams sample_players
              passing_stats rushing_stats receiving_stats weekly_stats
              seasonal_stats (mkFetcher "data/nfl" 2024) created_at) /\
       (forall x,
          r = Raised x ->
          last out = Some (SimpleCli.Said (PipelineFailed x)) /\
          exists ev,
            SimpleCli.Called ev ∈ rest /\ raised ev = Some x)).
Proof.
  unfold SimpleCli.main, bind. rewrite simple_init_run.
  destruct (os_makedirs "data/nfl" (SimpleCli.env w)) as [e' [[]|x]].
  2:{ intros [= <- <-]. eexists _, _. split; [reflexivity|].
      split; [|done]. by intros ? [= <-]. }
  unfold SimpleCli.method.
  cbn [SimpleCli.env SimpleCli.trace SimpleCli.stdout].
  rewrite SimpleFacts.run_simple_pipeline_eq. cbn [env trace stdout app].
  destruct (pipeline_steps_output (mkFetcher "data/nfl" 2024)
              (mkWorld e' [] [StartingPipeline]))
    as (w1 & r1 & evs & out & created_at & Hsteps & Ht & Ho & _ & Hall
        & Hlast & Hraised & _).
  rewrite Hsteps. cbn [trace stdout app] in Ht, Ho.
  destruct r1 as [[]|e1]; intros [= <- <-];
    cbn [SimpleCli.trace SimpleCli.stdout env trace stdout].
  - eexists _, _. split; [by rewrite <- app_assoc|]. split; [done|].
    intros _. exists (SimpleCli.Said <$> out).
    rewrite Ho, fmap_cons, <- !app_assoc. split; [done|]. split; [|done].
    intros _. split.
    + by rewrite fmap_last, Hlast.
    + exists created_at. rewrite simple_calls_called, Ht. by apply Hall.
  - eexists _, _. split; [by rewrite <- app_assoc|]. split; [done|].
    intros _. exists (SimpleCli.Said <$> (out ++ [PipelineFailed e1])).
    rewrite Ho. cbn [fmap list_fmap app]. rewrite fmap_app, <- !app_assoc.
    split; [done|]. split; [done|].
    intros x [= <-]. rewrite <- fmap_app, fmap_last, last_snoc.
    split; [done|].
    destruct (Hraised e1 eq_refl) as (ev & Hin & Hev).
    exists ev. split; [|done]. rewrite Ht. by apply list_elem_of_fmap_2.
Qed.

End SimpleMoreFacts.

(** *** Worked runs *)

Example simple_main_read_only :
  SimpleCli.demo_main SimpleCli.read_only 6 =
  (SimpleCli.mkWorld 0
     [SimpleCli.Made "data/nfl"
        (Raised (Exception "Read-only file system"))]
     [],
   Raised (Exception "Read-only file system")).
Proof. by vm_compute. Qed.

Lemma X18_witness :
  exists evs,
    trace (demo_run 6).1 = [] ++ evs /\
    length (SimpleCli.readings evs) <= 1 /\
    ((demo_run 6).2 = Returned tt ->
     exists t, SimpleCli.readings evs = [t]) /\
    SimpleCli.written evs `prefix_of`
      SimpleCli.simple_pipeline_output nat [1] [2; 3] [4] [5] [6; 7]
        [8; 9; 10] [11; 12] demo_fetcher
        (default "" (head (SimpleCli.readings evs))) /\
    ((demo_run 6).2 = Returned tt <->
     SimpleCli.written evs =
       SimpleCli.simple_pipeline_output nat [1] [2; 3] [4] [5] [6; 7]
         [8; 9; 10] [11; 12] demo_fetcher
         (default "" (head (SimpleCli.readings evs)))).
Proof.
  refine (X18_simple_pipeline_writes_in_order [1] [2; 3] [4] [5] [6; 7]
          [8; 9; 10] [11; 12] (disk 6) noon demo_fetcher (mkWorld 0 [] [])
          (demo_run 6).1 (demo_run 6).2 _).
  vm_compute. reflexivity.
Defined.

Lemma X19_witness :
  exists res rest,
    SimpleCli.trace (SimpleCli.demo_main SimpleCli.made 3).1 =
      [] ++ SimpleCli.Made "data/nfl" res :: rest /\
    (forall x,
       res = Raised x ->
       (SimpleCli.demo_main SimpleCli.made 3).2 = Raised x /\
       rest = [] /\
       SimpleCli.stdout (SimpleCli.demo_main SimpleCli.made 3).1 = []) /\
    (res = Returned tt ->
     exists out,
       SimpleCli.stdout (SimpleCli.demo_main SimpleCli.made 3).1 =
         [] ++
         [SimpleCli.Initialized; SimpleCli.OutputDirectory "data/nfl";
          SimpleCli.CurrentSeason 2024; SimpleCli.Said StartingPipeline]
         ++ out /\
       ((SimpleCli.demo_main SimpleCli.made 3).2 = Returned tt ->
        last out = Some (SimpleCli.Said NextSteps) /\
        exists created_at,
          SimpleCli.written (SimpleCli.calls rest) =
            SimpleCli.simple_pipeline_output nat [1] [2; 3] [4] [5] [6; 7]
              [8; 9; 10] [11; 12] (mkFetcher "data/nfl" 2024) created_at) /\
       (forall x,
          (SimpleCli.demo_main SimpleCli.made 3).2 = Raised x ->
          last out = Some (SimpleCli.Said (PipelineFailed x)) /\
          exists ev,
            SimpleCli.Called ev ∈ rest /\ raised ev = Some x)).
Proof.
  refine (X19_simple_main_failures [1] [2; 3] [4] [5] [6; 7] [8; 9; 10]
          [11; 12] (disk 3) noon SimpleCli.made (SimpleCli.mkWorld 0 [] [])
          (SimpleCli.demo_main SimpleCli.made 3).1
          (SimpleCli.demo_main SimpleCli.made 3).2 _).
  vm_compute. reflexivity.
Defined.

End SimpleMore.
